(** * schwifty: IBAN validation and generation (schwifty/iban.py)

    A shallow embedding of [schwifty/iban.py] and the properties of its
    specification.

    Conventions of the embedding:
    - a Python [str] is a [string] of 8-bit characters; on these, the
      classes [\d], [[A-Z]] and [[A-Za-z0-9]] of the [re] module are the
      ASCII ranges;
    - a Python [int] is a [Z];
    - a raised exception is the [Err] case of [result]; every exception of
      iban.py is a [ValueError], told apart here by its message;
    - the methods of an [IBAN] object run in a state and error monad over
      the object, since [_parse] assigns [self._code];
    - the registry of country specifications is a finite map. *)

From Stdlib Require Import ZArith NArith String Ascii List DecimalString Lia.
From stdpp Require Import gmap strings.

Open Scope string_scope.
Open Scope Z_scope.

#[local] Arguments String.append !s1 s2 : simpl nomatch.

(** ** Strings *)

Module Str.

(** [all p s]: every character of [s] satisfies [p]. *)
Fixpoint all (p : ascii -> bool) (s : string) : bool :=
  match s with
  | EmptyString => true
  | String c s' => p c && all p s'
  end.

(** [s[:n]] *)
Fixpoint take (n : nat) (s : string) : string :=
  match n, s with
  | S n', String c s' => String c (take n' s')
  | _, _ => EmptyString
  end.

(** [s[n:]] *)
Fixpoint drop (n : nat) (s : string) : string :=
  match n, s with
  | S n', String _ s' => drop n' s'
  | _, _ => s
  end.

(** [s[start:stop]] for non-negative bounds; [stop = None] is [s[start:]]. *)
Definition slice (start : nat) (stop : option nat) (s : string) : string :=
  match stop with
  | None => drop start s
  | Some e => drop start (take e s)
  end.

(** [c * n] *)
Fixpoint replicate (n : nat) (c : ascii) : string :=
  match n with
  | O => EmptyString
  | S n' => String c (replicate n' c)
  end.

(** [s.rjust(width, fill)] *)
Definition rjust (s : string) (width : Z) (fill : ascii) : string :=
  replicate (Z.to_nat (width - Z.of_nat (String.length s))) fill ++ s.

(** [s.index(c)] for a one-character [c]; [None] is the [ValueError]. *)
Fixpoint index (c : ascii) (s : string) : option nat :=
  match s with
  | EmptyString => None
  | String d s' => if Ascii.eqb c d then Some O else option_map S (index c s')
  end.

(** [s[:-1]], the string without its last character. *)
Fixpoint removelast (s : string) : string :=
  match s with
  | EmptyString => EmptyString
  | String c EmptyString => EmptyString
  | String c s' => String c (removelast s')
  end.

(** If [p] is a prefix of [s], the rest of [s]. *)
Fixpoint strip_prefix (p s : string) : option string :=
  match p, s with
  | EmptyString, _ => Some s
  | String a p', String b s' => if Ascii.eqb a b then strip_prefix p' s' else None
  | String _ _, EmptyString => None
  end.

(** The longest prefix of [s] whose characters satisfy [p], and the rest. *)
Fixpoint span (p : ascii -> bool) (s : string) : string * string :=
  match s with
  | EmptyString => (EmptyString, EmptyString)
  | String c s' =>
      if p c then let '(a, b) := span p s' in (String c a, b)
      else (EmptyString, s)
  end.

Definition filter (p : ascii -> bool) : string -> string :=
  fix go (s : string) : string :=
    match s with
    | EmptyString => EmptyString
    | String c s' => if p c then String c (go s') else go s'
    end.

Fixpoint map (f : ascii -> ascii) (s : string) : string :=
  match s with
  | EmptyString => EmptyString
  | String c s' => String (f c) (map f s')
  end.

End Str.

(** ** Characters *)

Definition is_digit (c : ascii) : bool := (("0" <=? c) && (c <=? "9"))%char.
Definition is_upper (c : ascii) : bool := (("A" <=? c) && (c <=? "Z"))%char.
Definition is_lower (c : ascii) : bool := (("a" <=? c) && (c <=? "z"))%char.
Definition is_alnum (c : ascii) : bool := is_upper c || is_lower c || is_digit c.
(** [0-9A-Z], the characters of [_alphabet]. *)
Definition is_upper_alnum (c : ascii) : bool := is_digit c || is_upper c.

Definition newline : ascii := ascii_of_nat 10.

(** ** Exceptions *)

(** The keys ['bank_code'], ['branch_code'] and ['account_code'] of
    [spec['positions']]. *)
Inductive code_type := BankCode | BranchCode | AccountCode.

Inductive error :=
| UnknownCountry (country_code : string)        (* 'Unknown country-code %s' *)
| CodeTooLong (code : code_type) (size : Z)     (* '... code exceeds maximum size %d' *)
| InvalidCharacters                             (* 'Invalid characters in IBAN' *)
| InvalidLength                                 (* 'Invalid IBAN length' *)
| InvalidBBANStructure (bban bban_spec : string)(* 'Invalid BBAN structure: ...' *)
| InvalidChecksum                               (* 'Invalid checksum digits' *)
| SubstringNotFound                             (* str.index: 'substring not found' *)
| InvalidLiteral                                (* int(''): 'invalid literal for int()' *)
| KeyError (key : string)                       (* a missing dict key *)
| ReError                                       (* re.error, OverflowError of re.compile *)
| OutsideFragment.                              (* regular expression outside the modelled syntax *)

Inductive result (A : Type) :=
| Ok (a : A)
| Err (e : error).
Arguments Ok {A} a.
Arguments Err {A} e.

Definition rbind {A B} (r : result A) (k : A -> result B) : result B :=
  match r with
  | Ok a => k a
  | Err e => Err e
  end.

(** ** numerify *)

(** [_alphabet = string.digits + string.ascii_uppercase] *)
Definition _alphabet : string := "0123456789ABCDEFGHIJKLMNOPQRSTUVWXYZ".

(** [str(n)] for a non-negative [n]. *)
Definition str_of_nat (n : nat) : string := NilZero.string_of_uint (Nat.to_uint n).
(** [str(z)] *)
Definition str_of_Z (z : Z) : string := NilZero.string_of_int (Z.to_int z).

Definition digit_value (c : ascii) : Z := Z.of_nat (nat_of_ascii c) - 48.

(** The value of a string of decimal digits read after the digits of value
    [acc]; [None] on any other character. *)
Fixpoint digits_value (acc : Z) (s : string) : option Z :=
  match s with
  | EmptyString => Some acc
  | String c s' => if is_digit c then digits_value (10 * acc + digit_value c) s' else None
  end.

(** [int(s)] on the strings [numerify] builds, which hold decimal digits
    only: the empty string and any other character are a [ValueError]. *)
Definition int_of_string (s : string) : result Z :=
  match s with
  | EmptyString => Err InvalidLiteral
  | _ => match digits_value 0 s with
         | Some z => Ok z
         | None => Err InvalidLiteral
         end
  end.

(** [''.join(str(_alphabet.index(c)) for c in string)] *)
Fixpoint numerify_digits (s : string) : result string :=
  match s with
  | EmptyString => Ok EmptyString
  | String c s' =>
      match Str.index c _alphabet with
      | None => Err SubstringNotFound
      | Some i => rbind (numerify_digits s') (fun r => Ok (str_of_nat i ++ r))
      end
  end.

Definition numerify (s : string) : result Z :=
  rbind (numerify_digits s) int_of_string.

(** ** Regular expressions

    The part of Python's [re] that iban.py uses: a regular expression is a
    sequence of pieces, each a character class with a repetition range, and
    may end with [$].  [compile] reads this syntax and answers
    [OutsideFragment] on anything else. *)

Module Re.

Inductive char_class :=
| Digit                (* \d *)
| Upper                (* [A-Z] *)
| Alnum                (* [A-Za-z0-9] *)
| Lit (c : ascii).     (* an ordinary character *)

Definition in_class (k : char_class) (c : ascii) : bool :=
  match k with
  | Digit => is_digit c
  | Upper => is_upper c
  | Alnum => is_alnum c
  | Lit d => Ascii.eqb d c
  end.

(** [class{min,max}]; [max = None] is unbounded (the [*] of [class*]). *)
Record piece := Piece { p_class : char_class; p_min : N; p_max : option N }.

(** [eol]: the expression ends with [$]. *)
Record regex := Regex { pieces : list piece; eol : bool }.

Definition below (n : N) (hi : option N) : bool :=
  match hi with
  | None => true
  | Some h => (n <? h)%N
  end.

(** Without [re.MULTILINE], [$] matches at the end of the string and just
    before a newline that ends the string. *)
Definition at_end (dollar : bool) (s : string) : bool :=
  if dollar then
    match s with
    | EmptyString => true
    | String c EmptyString => Ascii.eqb c newline
    | _ => false
    end
  else true.

(** A greedy repetition with backtracking: having taken [n] characters of
    the class, take one more if allowed, else (or if the rest then fails)
    go on with [rest] provided [n] reaches the minimum. *)
Fixpoint match_rep (k : char_class) (lo : N) (hi : option N)
         (rest : string -> bool) (n : N) (s : string) : bool :=
  match s with
  | String c s' =>
      (in_class k c && below n hi && match_rep k lo hi rest (N.succ n) s')
      || ((lo <=? n)%N && rest s)
  | EmptyString => (lo <=? n)%N && rest s
  end.

Fixpoint match_pieces (ps : list piece) (dollar : bool) (s : string) : bool :=
  match ps with
  | [] => at_end dollar s
  | p :: ps' =>
      match_rep (p_class p) (p_min p) (p_max p) (match_pieces ps' dollar) 0%N s
  end.

(** [bool(r.match(s))]: a match that starts at the first character. *)
Definition matches (r : regex) (s : string) : bool :=
  match_pieces (pieces r) (eol r) s.

(** *** The syntax *)

(** The characters with a meaning of their own in a regular expression. *)
Definition is_special (c : ascii) : bool :=
  match Str.index c ".^$*+?{}[]\|()" with
  | Some _ => true
  | None => false
  end.

Definition N_of_digits (ds : string) : N :=
  match digits_value 0 ds with
  | Some z => Z.to_N z
  | None => 0%N
  end.

(** [sre_constants.MAXREPEAT] of CPython. *)
Definition MAXREPEAT : N := 4294967295%N.

Definition parse_atom (s : string) : option (char_class * string) :=
  match Str.strip_prefix "\d" s with
  | Some r => Some (Digit, r)
  | None =>
  match Str.strip_prefix "[A-Za-z0-9]" s with
  | Some r => Some (Alnum, r)
  | None =>
  match Str.strip_prefix "[A-Z]" s with
  | Some r => Some (Upper, r)
  | None =>
  match s with
  | String c r => if is_special c then None else Some (Lit c, r)
  | EmptyString => None
  end end end end.

(** The bounds of a repetition, after its [{]: [n}] or [m,n}]. *)
Definition parse_bounds (s : string) : result (N * option N * string) :=
  let '(ds, r1) := Str.span is_digit s in
  let lo := N_of_digits ds in
  if String.eqb ds "" then Err OutsideFragment
  else
    match r1 with
    | EmptyString => Err OutsideFragment
    | String d r2 =>
        if Ascii.eqb d "}" then
          if (MAXREPEAT <=? lo)%N then Err ReError
          else Ok (lo, Some lo, r2)
        else if Ascii.eqb d "," then
          let '(es, r3) := Str.span is_digit r2 in
          let hi := N_of_digits es in
          if String.eqb es "" then Err OutsideFragment
          else
            match r3 with
            | EmptyString => Err OutsideFragment
            | String e r4 =>
                if Ascii.eqb e "}" then
                  if (MAXREPEAT <=? lo)%N || (MAXREPEAT <=? hi)%N then Err ReError
                  else if (hi <? lo)%N then Err ReError
                  else Ok (lo, Some hi, r4)
                else Err OutsideFragment
            end
        else Err OutsideFragment
    end.

(** The repetition after an atom: [*], [{n}], [{m,n}] or none. *)
Definition parse_quant (s : string) : result (N * option N * string) :=
  match s with
  | EmptyString => Ok (1%N, Some 1%N, s)
  | String c r =>
      if Ascii.eqb c "*" then Ok (0%N, None, r)
      else if Ascii.eqb c "{" then parse_bounds r
      else if Ascii.eqb c "+" || Ascii.eqb c "?" then Err OutsideFragment
      else Ok (1%N, Some 1%N, s)
  end.

Fixpoint parse_pieces (fuel : nat) (s : string) : result regex :=
  match fuel with
  | O => Err OutsideFragment
  | S fuel' =>
      if String.eqb s "" then Ok (Regex [] false)
      else if String.eqb s "$" then Ok (Regex [] true)
      else
        match parse_atom s with
        | None => Err OutsideFragment
        | Some (k, r) =>
            rbind (parse_quant r) (fun '(lo, hi, r') =>
            rbind (parse_pieces fuel' r') (fun re =>
            Ok (Regex (Piece k lo hi :: pieces re) (eol re))))
        end
  end.

(** [re.compile(s)], for use with [.match]: a leading [^] adds nothing
    to a match that starts at the first character. *)
Definition compile (s : string) : result regex :=
  let body := match s with
              | EmptyString => s
              | String c r => if Ascii.eqb c "^" then r else s
              end in
  parse_pieces (S (String.length body)) body.

End Re.

(** ** The pattern compiler *)

(** [_spec_to_re] *)
Definition _spec_to_re (t : ascii) : option string :=
  match t with
  | "n"%char => Some "\d"
  | "a"%char => Some "[A-Z]"
  | "c"%char => Some "[A-Za-z0-9]"
  | "e"%char => Some " "
  | _ => None
  end.

(** A match of [spec_re = r'(\d+)(!)?([nace])'] at the start of [s]: the
    groups 1, 2 (present or not) and 3, the regular expression of group 3,
    and the text after the match. *)
Definition match_spec_re (s : string) : option (string * bool * string * string) :=
  let '(ds, r) := Str.span is_digit s in
  if String.eqb ds "" then None
  else
    let '(group2, r1) :=
      match r with
      | EmptyString => (false, r)
      | String c r' => if Ascii.eqb c "!" then (true, r') else (false, r)
      end in
    match r1 with
    | EmptyString => None
    | String t r' =>
        match _spec_to_re t with
        | Some k => Some (ds, group2, k, r')
        | None => None
        end
    end.

(** [convert(match)] of [add_bban_regex], on the groups of the match. *)
Definition convert (group1 : string) (group2 : bool) (class_re : string) : string :=
  let quantifier := if group2 then "{" ++ group1 ++ "}" else "{1," ++ group1 ++ "}" in
  class_re ++ quantifier.

(** [re.sub(spec_re, convert, s)]: each match, taken leftmost first, is
    replaced by [convert]; the other characters are kept. *)
Fixpoint re_sub_spec (fuel : nat) (s : string) : string :=
  match fuel with
  | O => s
  | S fuel' =>
      match match_spec_re s with
      | Some (g1, g2, k, r) => convert g1 g2 k ++ re_sub_spec fuel' r
      | None =>
          match s with
          | EmptyString => EmptyString
          | String c s' => String c (re_sub_spec fuel' s')
          end
      end
  end.

(** The source text handed to [re.compile] by [add_bban_regex]. *)
Definition bban_regex_source (bban_spec : string) : string :=
  "^" ++ re_sub_spec (String.length bban_spec) bban_spec ++ "$".

(** ** Country specifications *)

(** An entry of [registry.get('iban')]: the dict with the keys
    [iban_length], [bban_spec], [positions] and, once [add_bban_regex] has
    run, [regex] ([None] while the key is absent). *)
Record spec := Spec {
  iban_length : Z;
  bban_spec : string;
  positions : code_type -> Z * Z;
  regex : option Re.regex
}.

(** [re.compile('^%s$' % re.sub(spec_re, convert, bban_spec))] *)
Definition compile_bban_spec (bban_spec : string) : result Re.regex :=
  Re.compile (bban_regex_source bban_spec).

Definition add_bban_regex (country : string) (sp : spec) : result spec :=
  rbind (compile_bban_spec (bban_spec sp)) (fun r =>
  Ok (Spec (iban_length sp) (bban_spec sp) (positions sp) (Some r))).

Definition code_length (sp : spec) (ct : code_type) : Z :=
  let '(start, end_) := positions sp ct in end_ - start.

(** ** The IBAN object *)

Record IBAN := { _code : string }.

(** A method of an [IBAN]: it may raise, and it may assign [self._code]. *)
Definition M (A : Type) : Type := IBAN -> result (A * IBAN).

Definition ret {A} (a : A) : M A := fun self => Ok (a, self).
Definition bind {A B} (m : M A) (k : A -> M B) : M B :=
  fun self => match m self with
              | Ok (a, self') => k a self'
              | Err e => Err e
              end.
Definition raise {A} (e : error) : M A := fun _ => Err e.
Definition lift {A} (r : result A) : M A :=
  fun self => match r with
              | Ok a => Ok (a, self)
              | Err e => Err e
              end.
Definition set_code (c : string) : M unit := fun _ => Ok (tt, {| _code := c |}).

Notation "x <- m ;; k" := (bind m (fun x => k))
  (at level 100, m at next level, k at level 200, right associativity).
Notation "m ;;; k" := (bind m (fun _ => k))
  (at level 100, k at level 200, right associativity).

Definition to_upper (c : ascii) : ascii :=
  if is_lower c then ascii_of_nat (nat_of_ascii c - 32) else c.

Module Base.

(** Modelled from the spec: [schwifty.common], with the class [Base] that
    [IBAN] extends, is not among the sources.  The normalisation of the
    constructor's argument is "uppercasing and whitespace removal". *)
Definition clean (s : string) : string :=
  Str.map to_upper (Str.filter (fun c => negb (Ascii.is_space c)) s).

(** Modelled from the spec: [Base.compact], the stored compact string. *)
Definition compact : M string := fun self => Ok (_code self, self).

(** Modelled from the spec: [Base.length], the length of [compact]. *)
Definition length : M Z := c <- compact ;; ret (Z.of_nat (String.length c)).

(** Modelled from the spec: [Base._get_component], the projection of the
    characters [start] to [end] of [compact] ("chars 0-2", "chars 2-4",
    "chars 4..end"). *)
Definition _get_component (start : nat) (end_ : option nat) : M string :=
  c <- compact ;; ret (Str.slice start end_ c).

End Base.

(** [bban = property(partial(Base._get_component, start=4))] and the like. *)
Definition bban : M string := Base._get_component 4 None.
Definition country_code : M string := Base._get_component 0 (Some 2%nat).
Definition checksum_digits : M string := Base._get_component 2 (Some 4%nat).

(** ['{:2d}'.format(z)]: the decimal digits of [z], right-aligned in a field
    of width 2 filled with spaces. *)
Definition format_2d (z : Z) : string := Str.rjust (str_of_Z z) 2 " ".

Definition _calc_checksum_digits : M string :=
  b <- bban ;;
  cc <- country_code ;;
  n <- lift (numerify (b ++ cc)) ;;
  ret (format_2d (98 - (n * 100) mod 97)).

Definition _parse (iban : string) : M unit :=
  cd <- checksum_digits ;;
  if String.eqb cd "??" then
    cc <- country_code ;;
    digits <- _calc_checksum_digits ;;
    b <- bban ;;
    set_code (cc ++ digits ++ b)
  else ret tt.

(** [numeric] *)
Definition numeric : M Z :=
  b <- bban ;;
  c <- Base.compact ;;
  lift (numerify (b ++ Str.take 4 c)).

Definition validate_characters : M unit :=
  c <- Base.compact ;;
  r <- lift (Re.compile "[A-Z]{2}\d{2}[A-Z]*") ;;
  if negb (Re.matches r c) then raise InvalidCharacters else ret tt.

Definition validate_checksum : M unit :=
  n <- numeric ;;
  if negb (n mod 97 =? 1) then raise InvalidChecksum else ret tt.

Section Registry.

(** [registry.get('iban')], after [registry.manipulate('iban', add_bban_regex)]. *)
Variable registry : gmap string spec.

Definition _get_iban_spec (cc : string) : result spec :=
  match registry !! cc with
  | Some sp => Ok sp
  | None => Err (UnknownCountry cc)
  end.

(** The property [spec]. *)
Definition spec_ : M spec :=
  cc <- country_code ;; lift (_get_iban_spec cc).

Definition validate_length : M unit :=
  sp <- spec_ ;;
  len <- Base.length ;;
  if negb (iban_length sp =? len) then raise InvalidLength else ret tt.

Definition validate_format : M unit :=
  sp <- spec_ ;;
  r <- lift (match regex sp with
             | Some r => Ok r
             | None => Err (KeyError "regex")
             end) ;;
  b <- bban ;;
  if negb (Re.matches r b) then
    sp' <- spec_ ;;
    raise (InvalidBBANStructure b (bban_spec sp'))
  else ret tt.

Definition validate : M bool :=
  validate_characters ;;;
  validate_length ;;;
  validate_format ;;;
  validate_checksum ;;;
  ret true.

(** [IBAN.__init__]: the new object, or the exception raised. *)
Definition IBAN_init (iban : string) (allow_invalid : bool) : result IBAN :=
  match (_parse iban ;;;
         if negb allow_invalid then validate ;;; ret tt else ret tt)
          {| _code := Base.clean iban |} with
  | Ok (_, self) => Ok self
  | Err e => Err e
  end.

(** The argument [generate] hands to the constructor. *)
Definition generate_skeleton (country_code bank_code account_code : string)
  : result string :=
  rbind (_get_iban_spec country_code) (fun sp =>
  let bank_code_length := code_length sp BankCode in
  let branch_code_length := code_length sp BranchCode in
  let bank_and_branch_code_length := bank_code_length + branch_code_length in
  let account_code_length := code_length sp AccountCode in
  if Z.of_nat (String.length bank_code) >? bank_and_branch_code_length then
    Err (CodeTooLong BankCode bank_and_branch_code_length)
  else if Z.of_nat (String.length account_code) >? account_code_length then
    Err (CodeTooLong AccountCode account_code_length)
  else
    let bank_code := Str.rjust bank_code bank_and_branch_code_length "0" in
    let account_code := Str.rjust account_code account_code_length "0" in
    Ok (country_code ++ "??" ++ bank_code ++ account_code)).

Definition generate (country_code bank_code account_code : string) : result IBAN :=
  rbind (generate_skeleton country_code bank_code account_code) (fun iban =>
  IBAN_init iban false).

End Registry.

(** ** An example registry *)

(** Modelled from the spec: the registry data is not among the sources.
    This is the entry for Germany as the specification's scenario gives it
    (length 22, pattern [8!n10!n], [bank_code] at (0,8), [account_code] at
    (8,18)), with an empty [branch_code] range. *)
Definition DE_positions (ct : code_type) : Z * Z :=
  match ct with
  | BankCode => (0, 8)
  | BranchCode => (8, 8)
  | AccountCode => (8, 18)
  end.

Definition DE_loaded : spec := Spec 22 "8!n10!n" DE_positions None.

Definition DE_regex : Re.regex :=
  Re.Regex [Re.Piece Re.Digit 8 (Some 8%N); Re.Piece Re.Digit 10 (Some 10%N)] true.

Definition DE_spec : spec := Spec 22 "8!n10!n" DE_positions (Some DE_regex).

Definition example_registry : gmap string spec := {[ "DE" := DE_spec ]}.

(** A second entry, with three ranges of different lengths: the United
    Kingdom's (length 22, pattern [4!a6!n8!n], [bank_code] at (0,4),
    [branch_code] at (4,10), [account_code] at (10,18)), as it is before
    [add_bban_regex] has run. *)
Definition GB_positions (ct : code_type) : Z * Z :=
  match ct with
  | BankCode => (0, 4)
  | BranchCode => (4, 10)
  | AccountCode => (10, 18)
  end.

Definition GB_loaded : spec := Spec 22 "4!a6!n8!n" GB_positions None.

(** The class a type character of the pattern language stands for. *)
Definition spec_class (t : ascii) : option Re.char_class :=
  match t with
  | "n"%char => Some Re.Digit
  | "a"%char => Some Re.Upper
  | "c"%char => Some Re.Alnum
  | "e"%char => Some (Re.Lit " ")
  | _ => None
  end.

(** The regular expression of an ordinary text: its characters, once each. *)
Fixpoint literal_pieces (s : string) : list Re.piece :=
  match s with
  | EmptyString => []
  | String c s' => Re.Piece (Re.Lit c) 1 (Some 1%N) :: literal_pieces s'
  end.

(** [n] is at most the bound [hi] of a repetition. *)
Definition within (n : N) (hi : option N) : Prop :=
  match hi with
  | None => True
  | Some h => (n <= h)%N
  end.

(** The length of a string, as a repetition count. *)
Definition len (s : string) : N := N.of_nat (String.length s).

(** The two decimal digits of a number from 10 to 99. *)
Definition two_digits (v : Z) : string :=
  String (ascii_of_nat (48 + Z.to_nat (v / 10)))
         (String (ascii_of_nat (48 + Z.to_nat (v mod 10))) "").

(** [s] is empty or starts with a character outside [p]. *)
Definition stops (p : ascii -> bool) (s : string) : Prop :=
  match s with
  | EmptyString => True
  | String c _ => p c = false
  end.

(** The optional [!] of a clause. *)
Definition bang_text (bang : bool) : string := if bang then "!" else "".

(** A letter, the shape of a type character. *)
Definition is_letter (c : ascii) : bool := is_upper c || is_lower c.

(** The characters of a clause: letters, digits and [!]. *)
Definition is_plain (c : ascii) : bool := is_alnum c || Ascii.eqb c "!".

(** The regular expression of [validate_characters], compiled. *)
Definition characters_re : Re.regex :=
  Re.Regex [Re.Piece Re.Upper 2 (Some 2%N); Re.Piece Re.Digit 2 (Some 2%N);
            Re.Piece Re.Upper 0 None] false.

(** ** The remaining accessors *)

(** A bound of a slice with integer bounds: a negative bound counts from
    the end, and the result is clamped to the string. *)
Definition slice_bound (n i : Z) : nat :=
  Z.to_nat (Z.min n (Z.max 0 (if i <? 0 then i + n else i))).

(** [s[start:end]] for integers [start] and [end]. *)
Definition slice_int (start end_ : Z) (s : string) : string :=
  let n := Z.of_nat (String.length s) in
  Str.drop (slice_bound n start) (Str.take (slice_bound n end_) s).

(** [range(0, n, 4)] *)
Definition range4 (n : nat) : list nat :=
  List.map (fun k => (4 * k)%nat) (seq 0 ((n + 3) / 4)).

(** [' '.join(compact[i:i + 4] for i in range(0, len(compact), 4))] *)
Definition formatted_text (compact : string) : string :=
  String.concat " "
    (List.map (fun i => Str.slice i (Some (i + 4)%nat) compact)
              (range4 (String.length compact))).

(** The property [formatted]. *)
Definition formatted : M string :=
  c <- Base.compact ;; ret (formatted_text c).

Section Components.

Variable registry : gmap string spec.

Definition _get_code (code_type : code_type) : M string :=
  sp <- spec_ registry ;;
  let '(start, end_) := positions sp code_type in
  b <- bban ;;
  ret (slice_int start end_ b).

(** [bank_code = property(partial(_get_code, code_type='bank_code'))] and
    the like. *)
Definition bank_code : M string := _get_code BankCode.
Definition branch_code : M string := _get_code BranchCode.
Definition account_code : M string := _get_code AccountCode.

End Components.

(** ** Patterns of several clauses *)

(** A clause [<count>[!]<type>] of the pattern language. *)
Record clause := Clause { c_count : string; c_bang : bool; c_type : ascii }.

Definition clause_text (c : clause) : string :=
  c_count c ++ bang_text (c_bang c) ++ String (c_type c) "".

Fixpoint clauses_text (cs : list clause) : string :=
  match cs with
  | [] => ""
  | c :: cs' => clause_text c ++ clauses_text cs'
  end.

(** The clause [c] is well formed and [p] is the repetition it stands for:
    the class of its type, [count] times with [!] and 1 to [count] times
    without. *)
Definition clause_piece (c : clause) (p : Re.piece) : Prop :=
  c_count c <> ""
  /\ Str.all is_digit (c_count c) = true
  /\ spec_class (c_type c) = Some (Re.p_class p)
  /\ Re.p_min p = (if c_bang c then Re.N_of_digits (c_count c) else 1%N)
  /\ Re.p_max p = Some (Re.N_of_digits (c_count c))
  /\ (Re.N_of_digits (c_count c) < Re.MAXREPEAT)%N
  /\ (c_bang c = false -> (1 <= Re.N_of_digits (c_count c))%N).

(** What [convert] makes of a clause. *)
Definition clause_regex_text (c : clause) : string :=
  match _spec_to_re (c_type c) with
  | Some txt => convert (c_count c) (c_bang c) txt
  | None => ""
  end.

Fixpoint clauses_regex_text (cs : list clause) : string :=
  match cs with
  | [] => ""
  | c :: cs' => clause_regex_text c ++ clauses_regex_text cs'
  end.

(** The syntax of a clause: a count of one or more digits and a letter as
    type character. *)
Definition clause_syntax (c : clause) : Prop :=
  c_count c <> "" /\ Str.all is_digit (c_count c) = true
  /\ is_letter (c_type c) = true.

(** [re.compile] takes the repetition that [convert] writes for the
    clause: the count is below [MAXREPEAT] and, without [!], at least 1
    (the repetition [{1,0}] is refused). *)
Definition repetition_ok (c : clause) : bool :=
  (Re.N_of_digits (c_count c) <? Re.MAXREPEAT)%N
  && (c_bang c || (1 <=? Re.N_of_digits (c_count c))%N).

(** Only a clause whose type is one of [n], [a], [c], [e] is rewritten as a
    repetition. *)
Definition clause_compiles (c : clause) : bool :=
  match spec_class (c_type c) with
  | Some _ => repetition_ok c
  | None => true
  end.

(** What the compiled expression holds for a clause: the repetition of its
    class when the type is one of [n], [a], [c], [e]; the characters of
    the clause itself, once each, otherwise. *)
Definition clause_pieces (c : clause) : list Re.piece :=
  match spec_class (c_type c) with
  | Some k => [Re.Piece k (if c_bang c then Re.N_of_digits (c_count c) else 1%N)
                          (Some (Re.N_of_digits (c_count c)))]
  | None => literal_pieces (clause_text c)
  end.

Definition compiled_clauses (cs : list clause) : result Re.regex :=
  if forallb clause_compiles cs
  then Ok (Re.Regex (flat_map clause_pieces cs) true)
  else Err ReError.

(** What [re.sub] makes of a clause: [convert] of it when the type is a key
    of [_spec_to_re], the clause as it is otherwise. *)
Definition clause_rewritten (c : clause) : string :=
  match _spec_to_re (c_type c) with
  | Some txt => convert (c_count c) (c_bang c) txt
  | None => clause_text c
  end.

Fixpoint clauses_rewritten (cs : list clause) : string :=
  match cs with
  | [] => ""
  | c :: cs' => clause_rewritten c ++ clauses_rewritten cs'
  end.

(** The strings of [ws], one after the other. *)
Fixpoint join (ws : list string) : string :=
  match ws with
  | [] => ""
  | w :: ws' => w ++ join ws'
  end.

(** [w] is a run of the class of [p] of a length in its range. *)
Definition run_of (p : Re.piece) (w : string) : Prop :=
  Str.all (Re.in_class (Re.p_class p)) w = true
  /\ (Re.p_min p <= len w)%N /\ within (len w) (Re.p_max p).

(** The number of decimal digits [numerify] writes for [s]: one for a
    digit and two for a letter. *)
Fixpoint expansion_length (s : string) : Z :=
  match s with
  | EmptyString => 0
  | String c s' => (if is_digit c then 1 else 2) + expansion_length s'
  end.

Definition not_space (c : ascii) : bool := negb (Ascii.is_space c).

(** * Properties *)

(** ** The model on the specification's scenarios *)

Example numerify_DE : numerify "DE" = Ok 1314.
Proof. reflexivity. Qed.

Example numerify_empty : numerify "" = Err InvalidLiteral.
Proof. reflexivity. Qed.

Example numerify_lower : numerify "de" = Err SubstringNotFound.
Proof. reflexivity. Qed.

Example compile_DE : Re.compile "^\d{8}\d{10}$" = Ok DE_regex.
Proof. reflexivity. Qed.

Example compile_min_gt_max : Re.compile "^\d{1,0}$" = Err ReError.
Proof. reflexivity. Qed.

Example compile_characters : Re.compile "[A-Z]{2}\d{2}[A-Z]*" = Ok characters_re.
Proof. reflexivity. Qed.

Example bban_regex_source_DE : bban_regex_source "8!n10!n" = "^\d{8}\d{10}$".
Proof. reflexivity. Qed.

Example bban_regex_source_GB :
  bban_regex_source "4a6n8c" = "^[A-Z]{1,4}\d{1,6}[A-Za-z0-9]{1,8}$".
Proof. reflexivity. Qed.

Example add_bban_regex_DE : add_bban_regex "DE" DE_loaded = Ok DE_spec.
Proof. reflexivity. Qed.

Example DE_valid :
  IBAN_init example_registry "DE89370400440532013000" false
  = Ok {| _code := "DE89370400440532013000" |}.
Proof. vm_compute. reflexivity. Qed.

Example DE_formatted_input :
  IBAN_init example_registry "DE89 3704 0044 0532 0130 00" false
  = Ok {| _code := "DE89370400440532013000" |}.
Proof. vm_compute. reflexivity. Qed.

Example DE_letter_in_numeric_field :
  IBAN_init example_registry "DE89370400440532013A00" false
  = Err (InvalidBBANStructure "370400440532013A00" "8!n10!n").
Proof. vm_compute. reflexivity. Qed.

Example DE_generate :
  generate example_registry "DE" "37040044" "532013000"
  = Ok {| _code := "DE89370400440532013000" |}.
Proof. vm_compute. reflexivity. Qed.

(** ** Strings *)

Lemma app_nil_r (s : string) : s ++ "" = s.
Proof. induction s as [|c s IH]; simpl; [reflexivity | now rewrite IH]. Qed.

Lemma app_assoc (a b c : string) : (a ++ b) ++ c = a ++ b ++ c.
Proof. induction a as [|x a IH]; simpl; [reflexivity | now rewrite IH]. Qed.

Lemma length_app (a b : string) :
  String.length (a ++ b) = (String.length a + String.length b)%nat.
Proof. induction a as [|x a IH]; simpl; [reflexivity | now rewrite IH]. Qed.

Lemma take_drop (n : nat) (s : string) : Str.take n s ++ Str.drop n s = s.
Proof.
  revert s; induction n as [|n IH]; intros [|c s]; simpl; try reflexivity.
  now rewrite IH.
Qed.

Lemma length_take (n : nat) (s : string) :
  String.length (Str.take n s) = Nat.min n (String.length s).
Proof.
  revert s; induction n as [|n IH]; intros [|c s]; simpl; try reflexivity.
  now rewrite IH.
Qed.

Lemma length_drop (n : nat) (s : string) :
  String.length (Str.drop n s) = (String.length s - n)%nat.
Proof.
  revert s; induction n as [|n IH]; intros [|c s]; simpl; try reflexivity.
  apply IH.
Qed.

Lemma take_app_length (a b : string) : Str.take (String.length a) (a ++ b) = a.
Proof. induction a as [|x a IH]; simpl; [now destruct b | now rewrite IH]. Qed.

Lemma drop_app_length (a b : string) : Str.drop (String.length a) (a ++ b) = b.
Proof. induction a as [|x a IH]; simpl; [now destruct b | apply IH]. Qed.

Lemma drop_take (n m : nat) (s : string) :
  Str.drop n (Str.take (n + m) s) = Str.take m (Str.drop n s).
Proof.
  revert s; induction n as [|n IH]; intros s; simpl.
  - now destruct (Str.take m s).
  - destruct s as [|c s]; simpl; [now destruct m | apply IH].
Qed.

Lemma substring_take_drop (n m : nat) (s : string) :
  substring n m s = Str.take m (Str.drop n s).
Proof.
  revert s; induction n as [|n IH]; intros s.
  - simpl. replace (Str.drop 0 s) with s by now destruct s.
    revert s; induction m as [|m IHm]; intros [|c s]; simpl; try reflexivity.
    now rewrite IHm.
  - destruct s as [|c s]; simpl; [now destruct m | apply IH].
Qed.

Lemma all_app (p : ascii -> bool) (a b : string) :
  Str.all p (a ++ b) = Str.all p a && Str.all p b.
Proof.
  induction a as [|x a IH]; simpl; [reflexivity |].
  now rewrite IH, andb_assoc.
Qed.

Lemma all_impl (p q : ascii -> bool) (s : string) :
  (forall c, p c = true -> q c = true) -> Str.all p s = true -> Str.all q s = true.
Proof.
  intros Hpq; induction s as [|c s IH]; simpl; [reflexivity |].
  rewrite !andb_true_iff; intros [Hc Hs]; split; auto.
Qed.

Lemma all_replicate (p : ascii -> bool) (n : nat) (c : ascii) :
  p c = true -> Str.all p (Str.replicate n c) = true.
Proof. intros Hc; induction n as [|n IH]; simpl; [reflexivity | now rewrite Hc]. Qed.

Lemma length_replicate (n : nat) (c : ascii) : String.length (Str.replicate n c) = n.
Proof. induction n as [|n IH]; simpl; [reflexivity | now rewrite IH]. Qed.

Lemma length_rjust (s : string) (width : Z) (fill : ascii) :
  Z.of_nat (String.length (Str.rjust s width fill))
  = Z.max width (Z.of_nat (String.length s)).
Proof. unfold Str.rjust. rewrite length_app, length_replicate. lia. Qed.

Lemma rjust_full (s : string) (width : Z) (fill : ascii) :
  width <= Z.of_nat (String.length s) -> Str.rjust s width fill = s.
Proof.
  intros H. unfold Str.rjust.
  now replace (Z.to_nat (width - Z.of_nat (String.length s))) with 0%nat by lia.
Qed.

Lemma drop_0 (s : string) : Str.drop 0 s = s.
Proof. now destruct s. Qed.

Lemma take_length (s : string) : Str.take (String.length s) s = s.
Proof. induction s as [|c s IH]; simpl; [reflexivity | now rewrite IH]. Qed.

Lemma Ok_fst_inj {A B} (a a' : A) (b b' : B) : Ok (a, b) = Ok (a', b') -> a = a'.
Proof. intros H. now inversion H. Qed.

(** ** Equations of the methods *)

Lemma country_code_eq (self : IBAN) :
  country_code self = Ok (Str.take 2 (_code self), self).
Proof.
  unfold country_code, Base._get_component, Base.compact, bind, ret, Str.slice.
  now rewrite drop_0.
Qed.

Lemma checksum_digits_eq (self : IBAN) :
  checksum_digits self = Ok (Str.take 2 (Str.drop 2 (_code self)), self).
Proof.
  unfold checksum_digits, Base._get_component, Base.compact, bind, ret, Str.slice.
  now rewrite (drop_take 2 2).
Qed.

Lemma bban_eq (self : IBAN) : bban self = Ok (Str.drop 4 (_code self), self).
Proof. reflexivity. Qed.

Lemma numeric_eq (self : IBAN) :
  numeric self
  = rbind (numerify (Str.drop 4 (_code self) ++ Str.take 4 (_code self)))
          (fun n => Ok (n, self)).
Proof.
  unfold numeric, bind, lift, Base.compact. rewrite bban_eq.
  now destruct (numerify _).
Qed.

Lemma validate_characters_eq (self : IBAN) :
  validate_characters self
  = if Re.matches characters_re (_code self) then Ok (tt, self)
    else Err InvalidCharacters.
Proof.
  unfold validate_characters, bind, lift, Base.compact.
  rewrite compile_characters.
  now destruct (Re.matches characters_re (_code self)).
Qed.

Lemma validate_checksum_eq (self : IBAN) :
  validate_checksum self
  = rbind (numerify (Str.drop 4 (_code self) ++ Str.take 4 (_code self)))
          (fun n => if n mod 97 =? 1 then Ok (tt, self) else Err InvalidChecksum).
Proof.
  unfold validate_checksum, bind. rewrite numeric_eq.
  destruct (numerify _) as [n|e]; unfold rbind; [|reflexivity].
  now destruct (n mod 97 =? 1).
Qed.

Lemma _calc_checksum_digits_eq (self : IBAN) :
  _calc_checksum_digits self
  = rbind (numerify (Str.drop 4 (_code self) ++ Str.take 2 (_code self)))
          (fun n => Ok (format_2d (98 - (n * 100) mod 97), self)).
Proof.
  unfold _calc_checksum_digits, bind, lift, ret.
  rewrite bban_eq, country_code_eq.
  now destruct (numerify _).
Qed.

Lemma _parse_eq (iban : string) (self : IBAN) :
  _parse iban self
  = if String.eqb (Str.take 2 (Str.drop 2 (_code self))) "??" then
      rbind (numerify (Str.drop 4 (_code self) ++ Str.take 2 (_code self)))
            (fun n => Ok (tt, {| _code := Str.take 2 (_code self)
                                           ++ format_2d (98 - (n * 100) mod 97)
                                           ++ Str.drop 4 (_code self) |}))
    else Ok (tt, self).
Proof.
  unfold _parse, bind, ret, set_code. rewrite checksum_digits_eq.
  destruct (String.eqb _ "??"); [|reflexivity].
  rewrite country_code_eq, _calc_checksum_digits_eq.
  destruct (numerify _) as [n|e]; unfold rbind; [|reflexivity].
  now rewrite bban_eq.
Qed.

Section RegistryEquations.

Variable registry : gmap string spec.

Lemma spec_eq (self : IBAN) :
  spec_ registry self
  = rbind (_get_iban_spec registry (Str.take 2 (_code self)))
          (fun sp => Ok (sp, self)).
Proof.
  unfold spec_, bind, lift. rewrite country_code_eq.
  now destruct (_get_iban_spec _ _).
Qed.

Lemma validate_length_eq (self : IBAN) :
  validate_length registry self
  = rbind (_get_iban_spec registry (Str.take 2 (_code self))) (fun sp =>
    if iban_length sp =? Z.of_nat (String.length (_code self))
    then Ok (tt, self) else Err InvalidLength).
Proof.
  unfold validate_length, bind. rewrite spec_eq.
  destruct (_get_iban_spec _ _) as [sp|e]; unfold rbind; [|reflexivity].
  unfold Base.length, Base.compact, bind, ret.
  now destruct (iban_length sp =? _).
Qed.

Lemma validate_format_eq (self : IBAN) :
  validate_format registry self
  = rbind (_get_iban_spec registry (Str.take 2 (_code self))) (fun sp =>
    match regex sp with
    | None => Err (KeyError "regex")
    | Some r =>
        if Re.matches r (Str.drop 4 (_code self)) then Ok (tt, self)
        else Err (InvalidBBANStructure (Str.drop 4 (_code self)) (bban_spec sp))
    end).
Proof.
  unfold validate_format, bind. rewrite spec_eq.
  destruct (_get_iban_spec _ _) as [sp|e] eqn:Hsp; unfold rbind; [|reflexivity].
  unfold lift. destruct (regex sp) as [r|]; [|reflexivity].
  rewrite bban_eq. destruct (Re.matches r _); cbv [negb]; [reflexivity|].
  rewrite spec_eq, Hsp. reflexivity.
Qed.

(** The checks never assign [self._code], so [validate] is their
    sequence on one object. *)
Lemma validate_eq (self : IBAN) :
  validate registry self
  = match validate_characters self with
    | Err e => Err e
    | Ok _ =>
    match validate_length registry self with
    | Err e => Err e
    | Ok _ =>
    match validate_format registry self with
    | Err e => Err e
    | Ok _ =>
    match validate_checksum self with
    | Err e => Err e
    | Ok _ => Ok (true, self)
    end end end end.
Proof.
  unfold validate, bind, ret.
  rewrite validate_characters_eq.
  destruct (Re.matches characters_re _); [|reflexivity].
  rewrite validate_length_eq.
  destruct (_get_iban_spec _ _) as [sp|e] eqn:Hsp; unfold rbind; [|reflexivity].
  destruct (iban_length sp =? _); [|reflexivity].
  rewrite validate_format_eq, Hsp; unfold rbind.
  destruct (regex sp) as [r|]; [|reflexivity].
  destruct (Re.matches r _); [|reflexivity].
  rewrite validate_checksum_eq.
  destruct (numerify _) as [n|e]; unfold rbind; [|reflexivity].
  now destruct (n mod 97 =? 1).
Qed.

Lemma IBAN_init_eq (iban : string) (allow_invalid : bool) :
  IBAN_init registry iban allow_invalid
  = match _parse iban {| _code := Base.clean iban |} with
    | Err e => Err e
    | Ok (_, self) =>
        if allow_invalid then Ok self
        else match validate registry self with
             | Ok _ => Ok self
             | Err e => Err e
             end
    end.
Proof.
  unfold IBAN_init, bind, ret.
  destruct (_parse iban _) as [[u self]|e]; [|reflexivity].
  destruct allow_invalid; simpl; [reflexivity|].
  rewrite validate_eq.
  destruct (validate_characters self) as [[]|]; [|reflexivity].
  destruct (validate_length registry self) as [[]|]; [|reflexivity].
  destruct (validate_format registry self) as [[]|]; [|reflexivity].
  now destruct (validate_checksum self) as [[]|].
Qed.

End RegistryEquations.

(** ** numerify on [0-9A-Z] *)

Lemma index_alphabet (c : ascii) :
  is_upper_alnum c = true ->
  exists i, Str.index c _alphabet = Some i /\ (i < 36)%nat.
Proof.
  destruct c as [b0 b1 b2 b3 b4 b5 b6 b7].
  destruct b0, b1, b2, b3, b4, b5, b6, b7; vm_compute; intros H;
    try discriminate H; eexists; (split; [reflexivity | repeat constructor]).
Qed.

Lemma index_alphabet_inv (c : ascii) (i : nat) :
  Str.index c _alphabet = Some i -> is_upper_alnum c = true.
Proof.
  destruct c as [b0 b1 b2 b3 b4 b5 b6 b7].
  destruct b0, b1, b2, b3, b4, b5, b6, b7; vm_compute; intros H;
    try discriminate H; reflexivity.
Qed.

(** A digit is its own entry of the numeric expansion. *)
Lemma index_digit (c : ascii) :
  is_digit c = true ->
  exists i, Str.index c _alphabet = Some i /\ str_of_nat i = String c "".
Proof.
  destruct c as [b0 b1 b2 b3 b4 b5 b6 b7].
  destruct b0, b1, b2, b3, b4, b5, b6, b7; vm_compute; intros H;
    try discriminate H; eexists; (split; reflexivity).
Qed.

Lemma str_of_index (i : nat) :
  (i < 36)%nat ->
  Str.all is_digit (str_of_nat i) = true /\ str_of_nat i <> "".
Proof.
  intros H.
  do 36 (destruct i as [|i]; [vm_compute; split; [reflexivity | discriminate] |]).
  lia.
Qed.

Lemma numerify_digits_ok (s : string) :
  Str.all is_upper_alnum s = true ->
  exists r, numerify_digits s = Ok r /\ Str.all is_digit r = true
            /\ (s <> "" -> r <> "").
Proof.
  induction s as [|c s IH]; cbn [Str.all numerify_digits].
  - intros _. exists "". repeat split. congruence.
  - rewrite andb_true_iff. intros [Hc Hs].
    destruct (index_alphabet c Hc) as (i & Hi & Hlt).
    destruct (IH Hs) as (r & Hr & Hd & _).
    destruct (str_of_index i Hlt) as [Hdi Hne].
    rewrite Hi, Hr. cbn [rbind]. exists (str_of_nat i ++ r). repeat split.
    + now rewrite all_app, Hdi, Hd.
    + intros _. destruct (str_of_nat i); [congruence | discriminate].
Qed.

Lemma numerify_digits_inv (s r : string) :
  numerify_digits s = Ok r -> Str.all is_upper_alnum s = true.
Proof.
  revert r; induction s as [|c s IH]; cbn [Str.all numerify_digits]; intros r; [reflexivity|].
  destruct (Str.index c _alphabet) as [i|] eqn:Hi; [|discriminate].
  destruct (numerify_digits s) as [r'|]; [|discriminate].
  intros _. now rewrite (index_alphabet_inv c i Hi), (IH r').
Qed.

Lemma numerify_digits_app (a b ra rb : string) :
  numerify_digits a = Ok ra -> numerify_digits b = Ok rb ->
  numerify_digits (a ++ b) = Ok (ra ++ rb).
Proof.
  revert ra; induction a as [|c a IH]; cbn [String.append numerify_digits]; intros ra Ha Hb.
  - now injection Ha as <-.
  - destruct (Str.index c _alphabet) as [i|]; [|discriminate].
    destruct (numerify_digits a) as [r|]; [|discriminate].
    cbn [rbind] in Ha. injection Ha as <-. rewrite (IH r eq_refl Hb). cbn [rbind].
    now rewrite app_assoc.
Qed.

Lemma numerify_digits_of_digits (s : string) :
  Str.all is_digit s = true -> numerify_digits s = Ok s.
Proof.
  induction s as [|c s IH]; cbn [Str.all numerify_digits]; [reflexivity|].
  rewrite andb_true_iff. intros [Hc Hs].
  destruct (index_digit c Hc) as (i & Hi & Hstr).
  now rewrite Hi, (IH Hs), Hstr.
Qed.

Lemma digits_value_ok (s : string) (acc : Z) :
  Str.all is_digit s = true -> exists z, digits_value acc s = Some z.
Proof.
  revert acc; induction s as [|c s IH]; simpl; intros acc.
  - intros _. now exists acc.
  - rewrite andb_true_iff. intros [Hc Hs]. rewrite Hc. apply (IH _ Hs).
Qed.

Lemma digits_value_app (a b : string) (acc z : Z) :
  digits_value acc a = Some z -> digits_value acc (a ++ b) = digits_value z b.
Proof.
  revert acc; induction a as [|c a IH]; simpl; intros acc H.
  - now injection H as <-.
  - destruct (is_digit c); [now apply IH | discriminate].
Qed.

Lemma int_of_string_ok (s : string) :
  Str.all is_digit s = true -> s <> "" ->
  exists z, int_of_string s = Ok z /\ digits_value 0 s = Some z.
Proof.
  intros Hd Hne. destruct (digits_value_ok s 0 Hd) as [z Hz].
  exists z. split; [|exact Hz].
  unfold int_of_string. destruct s; [congruence | now rewrite Hz].
Qed.

Lemma numerify_ok (s : string) :
  Str.all is_upper_alnum s = true -> s <> "" ->
  exists n r, numerify s = Ok n /\ numerify_digits s = Ok r
              /\ Str.all is_digit r = true /\ digits_value 0 r = Some n.
Proof.
  intros Hs Hne.
  destruct (numerify_digits_ok s Hs) as (r & Hr & Hd & Hrne).
  destruct (int_of_string_ok r Hd (Hrne Hne)) as (z & Hz & Hv).
  exists z, r. unfold numerify. rewrite Hr. simpl. auto.
Qed.

(** ** The accessors *)

(** C10. On an IBAN whose compact string has at least 4 characters, the
    accessors project it: [country_code] is the characters 0 to 2,
    [checksum_digits] the characters 2 to 4, [bban] the characters from 4
    on; the three concatenated are the compact string again, and each
    accessor leaves the object as it was. *)
Theorem accessors_project_compact (self : IBAN) :
  (4 <= String.length (_code self))%nat ->
  let c := _code self in
  country_code self = Ok (substring 0 2 c, self)
  /\ checksum_digits self = Ok (substring 2 2 c, self)
  /\ bban self = Ok (substring 4 (String.length c - 4) c, self)
  /\ String.length (substring 0 2 c) = 2%nat
  /\ String.length (substring 2 2 c) = 2%nat
  /\ substring 0 2 c ++ substring 2 2 c ++ substring 4 (String.length c - 4) c = c.
Proof.
  intros Hlen c. subst c.
  destruct self as [c]. cbn [_code] in *.
  rewrite country_code_eq, checksum_digits_eq, bban_eq. cbn [_code].
  rewrite !substring_take_drop, drop_0.
  assert (Hb : Str.take (String.length c - 4) (Str.drop 4 c) = Str.drop 4 c).
  { rewrite <- (length_drop 4 c). apply take_length. }
  rewrite Hb. repeat split.
  - rewrite length_take. lia.
  - rewrite length_take, length_drop. lia.
  - destruct c as [|a [|b [|d [|e r]]]]; reflexivity.
Qed.

Lemma accessors_project_compact_witness :
  country_code {| _code := "DE89370400440532013000" |}
  = Ok ("DE", {| _code := "DE89370400440532013000" |}).
Proof.
  refine (proj1 (accessors_project_compact {| _code := "DE89370400440532013000" |} _)).
  simpl. lia.
Defined.

(** ** The checksum check *)

(** C6. On a compact string over [0-9A-Z] of at least 4 characters the
    checksum check passes exactly when [numerify(bban + compact[:4]) % 97]
    is 1, [bban] being the characters from index 4 on; it raises
    [InvalidChecksum] otherwise. *)
Theorem validate_checksum_iff (c : string) :
  Str.all is_upper_alnum c = true ->
  (4 <= String.length c)%nat ->
  exists n,
    numerify (Str.drop 4 c ++ Str.take 4 c) = Ok n
    /\ (validate_checksum {| _code := c |} = Ok (tt, {| _code := c |})
        <-> n mod 97 = 1)
    /\ (n mod 97 <> 1 -> validate_checksum {| _code := c |} = Err InvalidChecksum).
Proof.
  intros Hc Hlen.
  assert (Hall : Str.all is_upper_alnum (Str.drop 4 c ++ Str.take 4 c) = true).
  { rewrite <- (take_drop 4 c), all_app in Hc.
    rewrite all_app. now rewrite andb_comm. }
  assert (Hne : Str.drop 4 c ++ Str.take 4 c <> "").
  { intros H. apply (f_equal String.length) in H.
    rewrite length_app, length_drop, length_take in H.
    change (String.length "") with 0%nat in H. lia. }
  destruct (numerify_ok _ Hall Hne) as (n & r & Hn & _).
  exists n. rewrite validate_checksum_eq. cbn [_code]. rewrite Hn. cbn [rbind].
  split; [exact eq_refl|]. split.
  - destruct (Z.eqb_spec (n mod 97) 1) as [E|E]; split; intros H;
      try congruence; try discriminate H; reflexivity.
  - intros E. now destruct (Z.eqb_spec (n mod 97) 1).
Qed.

Lemma validate_checksum_iff_witness :
  exists n,
    numerify (Str.drop 4 "DE89370400440532013000"
              ++ Str.take 4 "DE89370400440532013000") = Ok n
    /\ (validate_checksum {| _code := "DE89370400440532013000" |}
        = Ok (tt, {| _code := "DE89370400440532013000" |})
        <-> n mod 97 = 1)
    /\ (n mod 97 <> 1 ->
        validate_checksum {| _code := "DE89370400440532013000" |}
        = Err InvalidChecksum).
Proof.
  apply (validate_checksum_iff "DE89370400440532013000").
  - reflexivity.
  - simpl. lia.
Defined.

(** ** generate: the length checks and the padding *)

(** C7. With [bb] the sum of the lengths [end - start] of the country's
    [bank_code] and [branch_code] ranges and [al] the length of its
    [account_code] range (these are what [code_length] returns): codes no
    longer than [bb] and [al] are accepted and [generate] constructs the
    IBAN from [country_code + '??' + bank + account], each code
    left-padded with ['0'] to its length; a code of exactly that length is
    kept as it is; a bank code of length [bb + 1], or an account code of
    length [al + 1], raises [CodeTooLong]. *)
Theorem generate_pads_and_bounds
  (registry : gmap string spec) (cc bank account : string) (sp : spec)
  (bank_start bank_end branch_start branch_end account_start account_end : Z) :
  registry !! cc = Some sp ->
  positions sp BankCode = (bank_start, bank_end) ->
  positions sp BranchCode = (branch_start, branch_end) ->
  positions sp AccountCode = (account_start, account_end) ->
  let bb := (bank_end - bank_start) + (branch_end - branch_start) in
  let al := account_end - account_start in
  let blen := Z.of_nat (String.length bank) in
  let alen := Z.of_nat (String.length account) in
  (code_length sp BankCode = bank_end - bank_start
   /\ code_length sp BranchCode = branch_end - branch_start
   /\ code_length sp AccountCode = account_end - account_start)
  /\ (blen <= bb -> alen <= al ->
      let padded_bank := Str.replicate (Z.to_nat (bb - blen)) "0" ++ bank in
      let padded_account := Str.replicate (Z.to_nat (al - alen)) "0" ++ account in
      generate_skeleton registry cc bank account
      = Ok (cc ++ "??" ++ padded_bank ++ padded_account)
      /\ generate registry cc bank account
         = IBAN_init registry (cc ++ "??" ++ padded_bank ++ padded_account) false
      /\ Z.of_nat (String.length padded_bank) = bb
      /\ Z.of_nat (String.length padded_account) = al
      /\ (blen = bb -> padded_bank = bank)
      /\ (alen = al -> padded_account = account))
  /\ (blen = bb + 1 ->
      generate registry cc bank account = Err (CodeTooLong BankCode bb))
  /\ (blen <= bb -> alen = al + 1 ->
      generate registry cc bank account = Err (CodeTooLong AccountCode al)).
Proof.
  intros Hsp Hbank Hbranch Haccount bb al blen alen.
  assert (L1 : code_length sp BankCode = bank_end - bank_start)
    by (unfold code_length; now rewrite Hbank).
  assert (L2 : code_length sp BranchCode = branch_end - branch_start)
    by (unfold code_length; now rewrite Hbranch).
  assert (L3 : code_length sp AccountCode = account_end - account_start)
    by (unfold code_length; now rewrite Haccount).
  split; [auto|].
  unfold generate, generate_skeleton, _get_iban_spec. rewrite Hsp. cbn [rbind].
  rewrite L1, L2, L3. fold bb al blen alen.
  split; [|split].
  - intros Hb Ha. unfold Str.rjust. fold blen alen.
    destruct (Z.gtb_spec blen bb) as [H|_]; [lia|].
    destruct (Z.gtb_spec alen al) as [H|_]; [lia|].
    cbn [rbind]. repeat split.
    + subst blen. rewrite length_app, length_replicate. lia.
    + subst alen. rewrite length_app, length_replicate. lia.
    + intros E. now replace (Z.to_nat (bb - blen)) with 0%nat by lia.
    + intros E. now replace (Z.to_nat (al - alen)) with 0%nat by lia.
  - intros E. destruct (Z.gtb_spec blen bb) as [_|H]; [reflexivity | lia].
  - intros Hb E.
    destruct (Z.gtb_spec blen bb) as [H|_]; [lia|].
    destruct (Z.gtb_spec alen al) as [_|H]; [reflexivity | lia].
Qed.

Lemma generate_pads_and_bounds_witness :
  generate_skeleton example_registry "DE" "37040044" "532013000"
  = Ok "DE??370400440532013000"
  /\ generate example_registry "DE" "370400441" "532013000"
     = Err (CodeTooLong BankCode 8)
  /\ generate_skeleton {[ "GB" := GB_loaded ]} "GB" "NWBK601613" "1926819"
     = Ok "GB??NWBK60161301926819"
  /\ generate {[ "GB" := GB_loaded ]} "GB" "NWBK601613" "131926819"
     = Err (CodeTooLong AccountCode 8).
Proof.
  split; [|split; [|split]].
  - refine (proj1 (proj1 (proj2 (generate_pads_and_bounds example_registry
                                   "DE" "37040044" "532013000" DE_spec
                                   0 8 8 8 8 18 _ _ _ _)) _ _));
      [reflexivity | reflexivity | reflexivity | reflexivity
       | vm_compute; congruence | vm_compute; congruence].
  - refine (proj1 (proj2 (proj2 (generate_pads_and_bounds example_registry
                                   "DE" "370400441" "532013000" DE_spec
                                   0 8 8 8 8 18 _ _ _ _))) _);
      reflexivity.
  - refine (proj1 (proj1 (proj2 (generate_pads_and_bounds {[ "GB" := GB_loaded ]}
                                   "GB" "NWBK601613" "1926819" GB_loaded
                                   0 4 4 10 10 18 _ _ _ _)) _ _));
      [reflexivity | reflexivity | reflexivity | reflexivity
       | vm_compute; congruence | vm_compute; congruence].
  - refine (proj2 (proj2 (proj2 (generate_pads_and_bounds {[ "GB" := GB_loaded ]}
                                   "GB" "NWBK601613" "131926819" GB_loaded
                                   0 4 4 10 10 18 _ _ _ _))) _ _);
      [reflexivity | reflexivity | reflexivity | reflexivity
       | vm_compute; congruence | reflexivity].
Defined.

(** ** Regular expression matching *)

Lemma match_rep_tail (k : Re.char_class) (lo : N) (hi : option N)
      (rest : string -> bool) (n : N) (s : string) :
  (lo <=? n)%N = true -> rest s = true -> Re.match_rep k lo hi rest n s = true.
Proof.
  intros Hlo Hrest. destruct s as [|c s]; cbn [Re.match_rep]; rewrite Hlo, Hrest.
  - reflexivity.
  - apply orb_true_r.
Qed.

(** One more character of the class is taken while the minimum is not
    reached. *)
Lemma match_rep_take (k : Re.char_class) (lo : N) (hi : option N)
      (rest : string -> bool) (n : N) (c : ascii) (s : string) :
  Re.in_class k c = true -> Re.below n hi = true -> (lo <=? n)%N = false ->
  Re.match_rep k lo hi rest n (String c s)
  = Re.match_rep k lo hi rest (N.succ n) s.
Proof.
  intros Hc Hb Hlo. cbn [Re.match_rep]. rewrite Hc, Hb, Hlo. cbn [andb].
  apply orb_false_r.
Qed.

(** At the maximum, the repetition is over. *)
Lemma match_rep_full (k : Re.char_class) (lo : N) (hi : option N)
      (rest : string -> bool) (n : N) (s : string) :
  Re.below n hi = false ->
  Re.match_rep k lo hi rest n s = (lo <=? n)%N && rest s.
Proof.
  intros Hb. destruct s as [|c s]; cbn [Re.match_rep]; [reflexivity|].
  now rewrite Hb, andb_false_r.
Qed.

(** What [validate_characters] tests: the first four characters. *)
Lemma matches_characters_re (c : string) :
  Re.matches characters_re c = true
  <-> exists a b d e r,
        c = String a (String b (String d (String e r)))
        /\ is_upper a = true /\ is_upper b = true
        /\ is_digit d = true /\ is_digit e = true.
Proof.
  unfold Re.matches, characters_re. cbn [Re.pieces Re.eol Re.match_pieces].
  cbn [Re.p_class Re.p_min Re.p_max].
  split.
  - destruct c as [|a [|b [|d [|e r]]]];
      cbn -[is_upper is_digit];
      repeat rewrite ?andb_false_r, ?orb_false_r, ?andb_true_r, ?andb_false_l;
      try discriminate.
    destruct (is_upper a) eqn:Ha, (is_upper b) eqn:Hb,
             (is_digit d) eqn:Hd, (is_digit e) eqn:He;
      cbn -[is_upper is_digit Re.match_rep]; try discriminate.
    intros _. exists a, b, d, e, r. auto.
  - intros (a & b & d & e & r & -> & Ha & Hb & Hd & He).
    rewrite !match_rep_take by (try assumption; reflexivity).
    rewrite match_rep_full by reflexivity.
    change ((2 <=? N.succ (N.succ 0))%N) with true. cbn [andb Re.match_pieces].
    cbn [Re.p_class Re.p_min Re.p_max].
    rewrite !match_rep_take by (try assumption; reflexivity).
    rewrite match_rep_full by reflexivity.
    change ((2 <=? N.succ (N.succ 0))%N) with true. cbn [andb Re.match_pieces].
    cbn [Re.p_class Re.p_min Re.p_max].
    apply match_rep_tail; reflexivity.
Qed.

(** ** The character check *)

(** C3. [validate_characters] accepts a compact string exactly when its
    first two characters are uppercase letters and the next two are digits;
    [re.match] with a pattern that has no end anchor leaves the characters
    after the fourth unconstrained, so ["DE89!"] is accepted. *)
Theorem validate_characters_first_four_only :
  (forall c : string,
      validate_characters {| _code := c |} = Ok (tt, {| _code := c |})
      <-> exists a b d e r,
            c = String a (String b (String d (String e r)))
            /\ is_upper a = true /\ is_upper b = true
            /\ is_digit d = true /\ is_digit e = true)
  /\ validate_characters {| _code := "DE89!" |} = Ok (tt, {| _code := "DE89!" |})
  /\ Str.all is_upper_alnum (Str.drop 4 "DE89!") = false.
Proof.
  split; [|split; reflexivity].
  intros c. rewrite validate_characters_eq, <- matches_characters_re. cbn [_code].
  destruct (Re.matches characters_re c); split; intros H;
    try reflexivity; discriminate H.
Qed.

(** ** The checksum digits *)

Lemma format_2d_two_digits_b :
  forallb (fun i => String.eqb (format_2d (Z.of_nat i)) (two_digits (Z.of_nat i)))
          (seq 10 89) = true.
Proof. vm_compute. reflexivity. Qed.

(** From 10 on, ['{:2d}'] prints two digits. *)
Lemma format_2d_two_digits (v : Z) :
  10 <= v <= 98 ->
  exists c1 c2,
    format_2d v = String c1 (String c2 "")
    /\ is_digit c1 = true /\ is_digit c2 = true
    /\ 10 * digit_value c1 + digit_value c2 = v.
Proof.
  intros Hv.
  pose proof format_2d_two_digits_b as H.
  rewrite forallb_forall in H.
  specialize (H (Z.to_nat v)).
  rewrite Z2Nat.id in H by lia.
  assert (Hin : In (Z.to_nat v) (seq 10 89)) by (apply in_seq; lia).
  apply H, String.eqb_eq in Hin. rewrite Hin. unfold two_digits.
  assert (Hq : 1 <= v / 10 <= 9) by (Z.div_mod_to_equations; lia).
  assert (Hr : 0 <= v mod 10 <= 9) by (Z.div_mod_to_equations; lia).
  assert (Hd : forall k, 0 <= k <= 9 ->
               is_digit (ascii_of_nat (48 + Z.to_nat k)) = true
               /\ digit_value (ascii_of_nat (48 + Z.to_nat k)) = k).
  { intros k Hk.
    assert (Hk' : k = 0 \/ k = 1 \/ k = 2 \/ k = 3 \/ k = 4 \/ k = 5 \/ k = 6
                  \/ k = 7 \/ k = 8 \/ k = 9) by lia.
    repeat (destruct Hk' as [-> | Hk']; [split; reflexivity |]).
    subst k. split; reflexivity. }
  destruct (Hd (v / 10)) as [D1 V1]; [lia|].
  destruct (Hd (v mod 10)) as [D2 V2]; [lia|].
  do 2 eexists. split; [reflexivity|]. split; [exact D1|]. split; [exact D2|].
  rewrite V1, V2. Z.div_mod_to_equations. lia.
Qed.

(** C2. The checksum digits are formatted with ['{:2d}'], which pads with
    a space: for the BBAN [370400440532013003] of [DE] the value is 8 and
    the result is [" 8"], not ["08"]; the IBAN generated from these codes
    is then refused by the character check of the constructor. *)
Theorem checksum_digits_space_padded :
  _calc_checksum_digits {| _code := "DE??370400440532013003" |}
  = Ok (" 8", {| _code := "DE??370400440532013003" |})
  /\ Str.all is_digit " 8" = false
  /\ IBAN_init example_registry "DE??370400440532013003" true
     = Ok {| _code := "DE 8370400440532013003" |}
  /\ generate example_registry "DE" "37040044" "532013003" = Err InvalidCharacters.
Proof. repeat split; vm_compute; reflexivity. Qed.

(** ** Construction from a skeleton *)

(** C8. On an IBAN whose checksum digits are ['??'], [_parse] assigns
    [country_code + _calc_checksum_digits() + bban] to the stored compact
    string, the digits being [98 - (numerify(bban + country_code) * 100) % 97]
    formatted by ['{:2d}'] (and raises what [numerify] raises).  The
    constructor on [DE??370400440532013000] gives [DE89370400440532013000],
    with checksum digits [89].  On [DE??370400440532013003] the value is 8
    and the two digits are [08]: [DE08370400440532013003] passes the
    checksum check; the constructor stores [DE 8370400440532013003], with
    checksum digits [" 8"], and, when it validates, raises. *)
Theorem parse_writes_space_padded_checksum :
  (forall (iban : string) (a b : ascii) (r : string),
      _parse iban {| _code := String a (String b (String "?" (String "?" r))) |}
      = rbind (numerify (r ++ String a (String b "")))
          (fun n => Ok (tt, {| _code := String a (String b "")
                                        ++ format_2d (98 - (n * 100) mod 97)
                                        ++ r |})))
  /\ (forall registry : gmap string spec,
        IBAN_init registry "DE??370400440532013000" true
        = Ok {| _code := "DE89370400440532013000" |})
  /\ checksum_digits {| _code := "DE89370400440532013000" |}
     = Ok ("89", {| _code := "DE89370400440532013000" |})
  /\ numerify ("370400440532013003" ++ "DE") = Ok 3704004405320130031314
  /\ 98 - (3704004405320130031314 * 100) mod 97 = 8
  /\ validate_checksum {| _code := "DE08370400440532013003" |}
     = Ok (tt, {| _code := "DE08370400440532013003" |})
  /\ (forall registry : gmap string spec,
        IBAN_init registry "DE??370400440532013003" true
        = Ok {| _code := "DE 8370400440532013003" |})
  /\ checksum_digits {| _code := "DE 8370400440532013003" |}
     = Ok (" 8", {| _code := "DE 8370400440532013003" |})
  /\ (forall registry : gmap string spec,
        IBAN_init registry "DE??370400440532013003" false
        = Err InvalidCharacters).
Proof.
  split; [|split; [|split; [|split; [|split; [|split; [|split; [|split]]]]]]].
  - intros iban a b r. rewrite _parse_eq. cbn [_code].
    change (Str.take 2 (Str.drop 2 (String a (String b (String "?" (String "?" r))))))
      with "??".
    change (String.eqb "??" "??") with true. cbv iota.
    change (Str.drop 4 (String a (String b (String "?" (String "?" r))))) with r.
    change (Str.take 2 (String a (String b (String "?" (String "?" r)))))
      with (String a (String b "")).
    reflexivity.
  - intros registry. rewrite IBAN_init_eq. vm_compute. reflexivity.
  - reflexivity.
  - vm_compute. reflexivity.
  - vm_compute. reflexivity.
  - vm_compute. reflexivity.
  - intros registry. rewrite IBAN_init_eq. vm_compute. reflexivity.
  - reflexivity.
  - intros registry. rewrite IBAN_init_eq.
    change (_parse "DE??370400440532013003"
              {| _code := Base.clean "DE??370400440532013003" |})
      with (@Ok (unit * IBAN) (tt, {| _code := "DE 8370400440532013003" |})).
    cbv iota. rewrite validate_eq. reflexivity.
Qed.

(** ** The order of the checks *)

Lemma length_removelast (s : string) :
  s <> "" -> String.length (Str.removelast s) = (String.length s - 1)%nat.
Proof.
  induction s as [|c s IH]; [congruence|]. intros _.
  destruct s as [|d s]; [reflexivity|].
  change (Str.removelast (String c (String d s)))
    with (String c (Str.removelast (String d s))).
  cbn [String.length]. rewrite IH by discriminate. cbn [String.length]. lia.
Qed.

(** C9. [validate] runs the character, length, format and checksum checks
    in this order and raises what the first failing check raises.  In a
    registry whose IBAN lengths exceed the 4 characters of country code and
    checksum digits, a valid IBAN without its last character passes the
    character check and fails the length check: [validate] raises
    [InvalidLength]. *)
Theorem validate_order_and_truncation (registry : gmap string spec) :
  (forall cc sp, registry !! cc = Some sp -> 4 < iban_length sp) ->
  (forall (self : IBAN) (e : error),
      (validate_characters self = Err e -> validate registry self = Err e)
      /\ (validate_characters self = Ok (tt, self) ->
          validate_length registry self = Err e ->
          validate registry self = Err e)
      /\ (validate_characters self = Ok (tt, self) ->
          validate_length registry self = Ok (tt, self) ->
          validate_format registry self = Err e ->
          validate registry self = Err e)
      /\ (validate_characters self = Ok (tt, self) ->
          validate_length registry self = Ok (tt, self) ->
          validate_format registry self = Ok (tt, self) ->
          validate_checksum self = Err e ->
          validate registry self = Err e))
  /\ (forall self : IBAN,
        validate_characters self = Ok (tt, self) ->
        validate_length registry self = Ok (tt, self) ->
        validate_format registry self = Ok (tt, self) ->
        validate_checksum self = Ok (tt, self) ->
        validate registry self = Ok (true, self))
  /\ (forall c : string,
        validate registry {| _code := c |} = Ok (true, {| _code := c |}) ->
        let truncated := {| _code := Str.removelast c |} in
        validate_characters truncated = Ok (tt, truncated)
        /\ validate_length registry truncated = Err InvalidLength
        /\ validate registry truncated = Err InvalidLength).
Proof.
  intros Hreg. split; [|split].
  - intros self e. rewrite validate_eq. repeat split.
    + now intros ->.
    + now intros -> ->.
    + now intros -> -> ->.
    + now intros -> -> -> ->.
  - intros self. rewrite validate_eq. now intros -> -> -> ->.
  - intros c Hvalid truncated.
    rewrite validate_eq in Hvalid.
    rewrite validate_characters_eq in Hvalid. cbn [_code] in Hvalid.
    destruct (Re.matches characters_re c) eqn:Hchars; [|discriminate].
    apply matches_characters_re in Hchars.
    destruct Hchars as (a & b & d & e & r & -> & Ha & Hb & Hd & He).
    rewrite validate_length_eq in Hvalid. cbn [_code] in Hvalid.
    change (Str.take 2 (String a (String b (String d (String e r)))))
      with (String a (String b "")) in Hvalid.
    unfold _get_iban_spec in Hvalid.
    destruct (registry !! String a (String b "")) as [sp|] eqn:Hsp;
      [|discriminate].
    cbn [rbind] in Hvalid.
    destruct (Z.eqb_spec (iban_length sp)
                (Z.of_nat (String.length (String a (String b (String d (String e r))))))) as [Hlen|];
      [|discriminate].
    clear Hvalid. pose proof (Hreg _ _ Hsp) as Hlong.
    cbn [String.length] in Hlen.
    destruct r as [|x r]; [cbn [String.length] in Hlen; lia|].
    assert (Hc : validate_characters truncated = Ok (tt, truncated)).
    { rewrite validate_characters_eq.
      replace (Re.matches characters_re (_code truncated)) with true; [reflexivity|].
      symmetry. apply matches_characters_re.
      exists a, b, d, e, (Str.removelast (String x r)). auto. }
    assert (Hl : validate_length registry truncated = Err InvalidLength).
    { rewrite validate_length_eq. subst truncated. cbn [_code].
      change (Str.removelast (String a (String b (String d (String e (String x r))))))
        with (String a (String b (String d (String e (Str.removelast (String x r)))))).
      change (Str.take 2 (String a (String b (String d (String e (Str.removelast (String x r)))))))
        with (String a (String b "")).
      unfold _get_iban_spec. rewrite Hsp. cbn [rbind String.length].
      rewrite length_removelast by discriminate.
      cbn [String.length] in *.
      destruct (Z.eqb_spec (iban_length sp)
                  (Z.of_nat (S (S (S (S (S (String.length r) - 1))))))) as [E|_];
        [lia | reflexivity]. }
    split; [exact Hc|]. split; [exact Hl|].
    rewrite validate_eq, Hc, Hl. reflexivity.
Qed.

Lemma example_registry_lengths (cc : string) (sp : spec) :
  example_registry !! cc = Some sp -> 4 < iban_length sp.
Proof.
  unfold example_registry. intros H.
  apply lookup_singleton_Some in H. destruct H as [_ <-]. reflexivity.
Qed.

Lemma validate_order_and_truncation_witness :
  validate example_registry {| _code := "DE8937040044053201300" |}
  = Err InvalidLength.
Proof.
  refine (proj2 (proj2 (proj2 (proj2 (validate_order_and_truncation
            example_registry example_registry_lengths))
            "DE89370400440532013000" _))).
  vm_compute. reflexivity.
Defined.

(** ** generate, then validate *)

Lemma clean_char (c : ascii) :
  is_upper_alnum c = true \/ c = "?"%char ->
  Ascii.is_space c = false /\ to_upper c = c.
Proof.
  intros [H | ->]; [|split; reflexivity].
  revert H. destruct c as [b0 b1 b2 b3 b4 b5 b6 b7].
  destruct b0, b1, b2, b3, b4, b5, b6, b7; vm_compute; intros H;
    try discriminate H; split; reflexivity.
Qed.

(** The normalisation leaves a string of [0-9A-Z?] as it is. *)
Lemma clean_id (s : string) :
  Str.all (fun c => is_upper_alnum c || Ascii.eqb c "?") s = true ->
  Base.clean s = s.
Proof.
  unfold Base.clean. induction s as [|c s IH]; [reflexivity|].
  cbn [Str.all]. rewrite andb_true_iff, orb_true_iff, Ascii.eqb_eq.
  intros [Hc Hs]. destruct (clean_char c Hc) as [Hsp Hup].
  cbn [Str.filter]. rewrite Hsp. cbn [negb Str.map].
  rewrite Hup. f_equal. apply IH, Hs.
Qed.

Lemma all_rjust_0 (s : string) (width : Z) :
  Str.all is_upper_alnum s = true ->
  Str.all is_upper_alnum (Str.rjust s width "0") = true.
Proof.
  intros H. unfold Str.rjust. rewrite all_app, H, all_replicate; reflexivity.
Qed.

Lemma validate_ok (registry : gmap string spec) (c : string) (sp : spec)
      (r : Re.regex) (n : Z) :
  Re.matches characters_re c = true ->
  registry !! Str.take 2 c = Some sp ->
  iban_length sp = Z.of_nat (String.length c) ->
  regex sp = Some r ->
  Re.matches r (Str.drop 4 c) = true ->
  numerify (Str.drop 4 c ++ Str.take 4 c) = Ok n ->
  n mod 97 = 1 ->
  validate registry {| _code := c |} = Ok (true, {| _code := c |}).
Proof.
  intros Hchars Hsp Hlen Hre Hmatch Hnum Hmod.
  rewrite validate_eq, validate_characters_eq, validate_length_eq,
    validate_format_eq, validate_checksum_eq.
  cbn [_code]. unfold _get_iban_spec. rewrite Hchars, Hsp. cbn [rbind].
  rewrite Hlen, Z.eqb_refl, Hre, Hmatch, Hnum. cbn [rbind].
  now rewrite Hmod.
Qed.

(** The numeric value of a string followed by two digits. *)
Lemma numerify_two_more (s : string) (c1 c2 : ascii) (n : Z) :
  numerify s = Ok n ->
  is_digit c1 = true -> is_digit c2 = true ->
  numerify (s ++ String c1 (String c2 ""))
  = Ok (n * 100 + (10 * digit_value c1 + digit_value c2)).
Proof.
  intros Hn H1 H2. unfold numerify in *.
  destruct (numerify_digits s) as [r|] eqn:Hr; [|discriminate].
  cbn [rbind] in Hn.
  assert (Hd : numerify_digits (String c1 (String c2 "")) = Ok (String c1 (String c2 ""))).
  { apply numerify_digits_of_digits. cbn [Str.all]. now rewrite H1, H2. }
  rewrite (numerify_digits_app _ _ _ _ Hr Hd). cbn [rbind].
  unfold int_of_string in Hn. destruct r as [|x r]; [discriminate|].
  destruct (digits_value 0 (String x r)) as [z|] eqn:Hz; [|discriminate].
  injection Hn as ->.
  unfold int_of_string. cbn [String.append].
  change (String x (r ++ String c1 (String c2 "")))
    with (String x r ++ String c1 (String c2 "")).
  rewrite (digits_value_app _ _ _ _ Hz). cbn [digits_value].
  rewrite H1, H2. f_equal. lia.
Qed.

Lemma checksum_closes (n : Z) :
  (n * 100 + (98 - (n * 100) mod 97)) mod 97 = 1.
Proof. Z.div_mod_to_equations. lia. Qed.

(** C1, as stated, fails: in the registry of the example, ["A"] and ["1"]
    are no longer than the fields of [DE], yet [generate] raises, since the
    padded BBAN does not match the pattern of the country. *)
Lemma generate_rejects_short_codes :
  example_registry !! "DE" = Some DE_spec
  /\ Z.of_nat (String.length "A")
     <= code_length DE_spec BankCode + code_length DE_spec BranchCode
  /\ Z.of_nat (String.length "1") <= code_length DE_spec AccountCode
  /\ generate example_registry "DE" "A" "1"
     = Err (InvalidBBANStructure "0000000A0000000001" "8!n10!n")
  /\ ~ exists iban, generate example_registry "DE" "A" "1" = Ok iban.
Proof.
  assert (H : generate example_registry "DE" "A" "1"
              = Err (InvalidBBANStructure "0000000A0000000001" "8!n10!n"))
    by (vm_compute; reflexivity).
  repeat split; try (vm_compute; congruence).
  intros [iban Hi]. rewrite H in Hi. discriminate Hi.
Qed.

(** C1, amended. For a country code of two uppercase letters in the
    registry, and bank and account codes over [0-9A-Z] no longer than the
    country's fields, [generate] succeeds and the IBAN passes [validate]
    provided the fields cover the BBAN ([iban_length] is 4 plus the two
    field lengths), the padded codes match the country's pattern and the
    check value is at least 10. *)
Theorem generate_then_validate
  (registry : gmap string spec) (cc bank account : string)
  (sp : spec) (r : Re.regex) (n : Z) :
  registry !! cc = Some sp ->
  (exists a b, cc = String a (String b "")
               /\ is_upper a = true /\ is_upper b = true) ->
  Str.all is_upper_alnum bank = true ->
  Str.all is_upper_alnum account = true ->
  let bb := code_length sp BankCode + code_length sp BranchCode in
  let al := code_length sp AccountCode in
  Z.of_nat (String.length bank) <= bb ->
  Z.of_nat (String.length account) <= al ->
  iban_length sp = 4 + bb + al ->
  let padded := Str.rjust bank bb "0" ++ Str.rjust account al "0" in
  regex sp = Some r ->
  Re.matches r padded = true ->
  numerify (padded ++ cc) = Ok n ->
  10 <= 98 - (n * 100) mod 97 ->
  let iban := {| _code := cc ++ format_2d (98 - (n * 100) mod 97) ++ padded |} in
  generate registry cc bank account = Ok iban
  /\ validate registry iban = Ok (true, iban).
Proof.
  intros Hsp (a & b & -> & Ha & Hb) Hbank Hacc bb al Hbl Hal Hlen padded
         Hre Hmatch Hnum Hv iban.
  assert (Hpad : Str.all is_upper_alnum padded = true).
  { subst padded. now rewrite all_app, !all_rjust_0. }
  assert (Hplen : Z.of_nat (String.length padded) = bb + al).
  { subst padded. rewrite length_app, Nat2Z.inj_add, !length_rjust. lia. }
  destruct (format_2d_two_digits (98 - (n * 100) mod 97)) as (c1 & c2 & Hfmt & H1 & H2 & Hval).
  { pose proof (Z.mod_pos_bound (n * 100) 97). lia. }
  assert (Hvalid : validate registry iban = Ok (true, iban)).
  { subst iban. rewrite Hfmt. cbn [String.append].
    apply (validate_ok registry _ sp r (n * 100 + (98 - (n * 100) mod 97))).
    - apply matches_characters_re. exists a, b, c1, c2, padded. auto.
    - exact Hsp.
    - cbn [String.length]. lia.
    - exact Hre.
    - exact Hmatch.
    - change (Str.drop 4 (String a (String b (String c1 (String c2 padded)))))
        with padded.
      change (Str.take 4 (String a (String b (String c1 (String c2 padded)))))
        with (String a (String b "") ++ String c1 (String c2 "")).
      rewrite <- app_assoc, <- Hval.
      now apply numerify_two_more.
    - apply checksum_closes. }
  split; [|exact Hvalid].
  unfold generate, generate_skeleton, _get_iban_spec. rewrite Hsp. cbn [rbind].
  fold bb al.
  destruct (Z.gtb_spec (Z.of_nat (String.length bank)) bb) as [H|_]; [lia|].
  destruct (Z.gtb_spec (Z.of_nat (String.length account)) al) as [H|_]; [lia|].
  cbn [rbind]. fold padded. rewrite IBAN_init_eq.
  rewrite clean_id.
  2:{ cbn [String.append Str.all].
      unfold is_upper_alnum at 1 2. rewrite Ha, Hb, !orb_true_r.
      change (is_upper_alnum "?" || ("?" =? "?")%char) with true. cbn [andb orb].
      eapply all_impl; [|exact Hpad]. intros c ->. reflexivity. }
  rewrite _parse_eq. cbn [_code String.append].
  change (Str.take 2 (Str.drop 2 (String a (String b (String "?" (String "?" padded))))))
    with "??".
  change (String.eqb "??" "??") with true. cbv iota.
  change (Str.drop 4 (String a (String b (String "?" (String "?" padded)))))
    with padded.
  change (Str.take 2 (String a (String b (String "?" (String "?" padded)))))
    with (String a (String b "")).
  rewrite Hnum. cbn [rbind].
  fold iban. now rewrite Hvalid.
Qed.

Lemma generate_then_validate_witness :
  generate example_registry "DE" "37040044" "532013000"
  = Ok {| _code := "DE89370400440532013000" |}
  /\ validate example_registry {| _code := "DE89370400440532013000" |}
     = Ok (true, {| _code := "DE89370400440532013000" |}).
Proof.
  refine (generate_then_validate example_registry "DE" "37040044" "532013000"
            DE_spec DE_regex 3704004405320130001314 _ _ _ _ _ _ _ _ _ _ _);
    try reflexivity; try (vm_compute; congruence).
  exists "D"%char, "E"%char. repeat split.
Defined.

(** ** Repetitions *)

Lemma len_cons (c : ascii) (s : string) : len (String c s) = N.succ (len s).
Proof. unfold len. cbn [String.length]. lia. Qed.

(** A repetition matches a run of its class, of a length in its range,
    followed by what the rest of the expression matches. *)
Lemma match_rep_spec (k : Re.char_class) (lo : N) (hi : option N)
      (rest : string -> bool) (s : string) (n : N) :
  Re.match_rep k lo hi rest n s = true
  <-> exists w t,
        s = w ++ t /\ Str.all (Re.in_class k) w = true
        /\ (lo <= n + len w)%N /\ (w = "" \/ within (n + len w) hi)
        /\ rest t = true.
Proof.
  revert n; induction s as [|c s IH]; intros n; cbn [Re.match_rep].
  - rewrite andb_true_iff, N.leb_le. split.
    + intros [Hlo Hr]. exists "", "". change (len "") with 0%N.
      rewrite N.add_0_r. auto 6.
    + intros (w & t & Hs & _ & Hlo & _ & Hr).
      destruct w; [|discriminate]. cbn [String.append] in Hs. subst t.
      change (len "") with 0%N in Hlo. rewrite N.add_0_r in Hlo. auto.
  - rewrite orb_true_iff, !andb_true_iff, N.leb_le, IH. split.
    + intros [[[Hc Hb] (w & t & -> & Hw & Hlo & Hhi & Hr)] | [Hlo Hr]].
      * exists (String c w), t. rewrite len_cons. cbn [Str.all String.append].
        rewrite Hc, Hw. repeat split; [lia | | exact Hr].
        right. destruct hi as [h|]; cbn [within Re.below] in *; [|exact I].
        apply N.ltb_lt in Hb. destruct Hhi as [-> | Hhi]; [|lia].
        change (len "") with 0%N. lia.
      * exists "", (String c s). change (len "") with 0%N.
        rewrite N.add_0_r. auto 6.
    + intros (w & t & Hs & Hw & Hlo & Hhi & Hr).
      destruct w as [|c' w].
      * right. cbn [String.append] in Hs. subst t.
        change (len "") with 0%N in Hlo. rewrite N.add_0_r in Hlo. auto.
      * left. cbn [String.append] in Hs. injection Hs as <- ->.
        cbn [Str.all] in Hw. apply andb_true_iff in Hw as [Hc Hw].
        rewrite len_cons in Hlo, Hhi.
        destruct Hhi as [Hhi | Hhi]; [discriminate|].
        split; [split; [exact Hc|] |].
        -- destruct hi as [h|]; cbn [within Re.below] in *; [|reflexivity].
           apply N.ltb_lt. lia.
        -- exists w, t. repeat split; try assumption; [lia|].
           right. destruct hi as [h|]; cbn [within] in *; [lia | exact I].
Qed.

Lemma at_end_dollar (t : string) :
  Re.at_end true t = true <-> t = "" \/ t = String newline "".
Proof.
  destruct t as [|c [|d t]]; cbn [Re.at_end].
  - split; auto.
  - rewrite Ascii.eqb_eq. split.
    + intros ->. now right.
    + intros [H | H]; [discriminate | now injection H].
  - split; [discriminate | intros [H | H]; discriminate].
Qed.

(** The matcher of one clause anchored by [$]: a run of the class of a
    length in the range, then the end of the string or one last newline. *)
Lemma matches_single (k : Re.char_class) (lo hi : N) (s : string) :
  Re.matches (Re.Regex [Re.Piece k lo (Some hi)] true) s = true
  <-> exists w,
        (s = w \/ s = w ++ String newline "")
        /\ Str.all (Re.in_class k) w = true
        /\ (lo <= len w <= hi)%N.
Proof.
  unfold Re.matches. cbn [Re.pieces Re.eol Re.match_pieces Re.p_class Re.p_min Re.p_max].
  rewrite match_rep_spec. split.
  - intros (w & t & -> & Hw & Hlo & Hhi & Ht).
    apply at_end_dollar in Ht. exists w. rewrite N.add_0_l in *.
    split; [destruct Ht as [-> | ->]; [left; now rewrite app_nil_r | now right] |].
    split; [exact Hw|]. split; [exact Hlo|].
    destruct Hhi as [-> | Hhi]; [change (len "") with 0%N; lia | exact Hhi].
  - intros (w & Hs & Hw & Hlo & Hhi).
    exists w, (if String.eqb s w then "" else String newline "").
    rewrite N.add_0_l. repeat split; try assumption.
    + destruct Hs as [-> | ->].
      * now rewrite String.eqb_refl, app_nil_r.
      * destruct (String.eqb_spec (w ++ String newline "") w) as [E|_]; [|reflexivity].
        apply (f_equal String.length) in E. rewrite length_app in E.
        cbn [String.length] in E. lia.
    + now right.
    + now destruct (String.eqb s w).
Qed.

(** An expression with a piece of minimum 1 or more rejects the empty
    string. *)
Lemma match_pieces_empty (ps : list Re.piece) (dollar : bool) :
  Re.match_pieces ps dollar ""
  = forallb (fun p => (Re.p_min p =? 0)%N) ps.
Proof.
  induction ps as [|p ps IH]; cbn [Re.match_pieces forallb Re.match_rep].
  - now destruct dollar.
  - rewrite IH. f_equal.
    destruct (N.leb_spec (Re.p_min p) 0), (N.eqb_spec (Re.p_min p) 0);
      try reflexivity; lia.
Qed.


(** ** The pattern compiler on one clause *)

Lemma span_app_stop (p : ascii -> bool) (a rest : string) :
  Str.all p a = true -> stops p rest -> Str.span p (a ++ rest) = (a, rest).
Proof.
  intros Ha Hrest. induction a as [|c a IH]; cbn [String.append].
  - destruct rest as [|d rest]; cbn [Str.span]; [reflexivity|].
    cbn [stops] in Hrest. now rewrite Hrest.
  - cbn [Str.all] in Ha. apply andb_true_iff in Ha as [Hc Ha].
    cbn [Str.span]. now rewrite Hc, (IH Ha).
Qed.

Lemma spec_cases (t : ascii) (k : Re.char_class) :
  spec_class t = Some k ->
  (t = "n"%char /\ k = Re.Digit) \/ (t = "a"%char /\ k = Re.Upper)
  \/ (t = "c"%char /\ k = Re.Alnum) \/ (t = "e"%char /\ k = Re.Lit " ").
Proof.
  destruct t as [b0 b1 b2 b3 b4 b5 b6 b7].
  destruct b0, b1, b2, b3, b4, b5, b6, b7; cbn [spec_class]; intros H;
    try discriminate H; injection H as <-; auto 6.
Qed.

(** The regular expression text of a type character, and how it is read
    back. *)
Lemma spec_text (t : ascii) (k : Re.char_class) :
  spec_class t = Some k ->
  exists txt,
    _spec_to_re t = Some txt /\ txt <> ""
    /\ forall rest, Re.parse_atom (txt ++ rest) = Some (k, rest).
Proof.
  intros Ht.
  destruct (spec_cases t k Ht) as [[-> ->]|[[-> ->]|[[-> ->]|[-> ->]]]];
    eexists; (split; [reflexivity|]); (split; [discriminate|]);
    intros rest; reflexivity.
Qed.

Lemma spec_not_digit (t : ascii) (k : Re.char_class) :
  spec_class t = Some k -> is_digit t = false /\ Ascii.eqb t "!" = false.
Proof.
  intros Ht.
  destruct (spec_cases t k Ht) as [[-> _]|[[-> _]|[[-> _]|[-> _]]]];
    split; reflexivity.
Qed.

Lemma eqb_nonempty (s : string) : s <> "" -> String.eqb s "" = false.
Proof. intros H. now apply String.eqb_neq. Qed.

Lemma re_sub_spec_empty (fuel : nat) : re_sub_spec fuel "" = "".
Proof. now destruct fuel. Qed.

Lemma match_spec_re_clause (count : string) (bang : bool) (t : ascii)
      (txt rest : string) :
  count <> "" -> Str.all is_digit count = true ->
  is_digit t = false -> Ascii.eqb t "!" = false -> _spec_to_re t = Some txt ->
  match_spec_re (count ++ bang_text bang ++ String t rest)
  = Some (count, bang, txt, rest).
Proof.
  intros Hne Hd Ht Hbang Htxt. unfold match_spec_re.
  rewrite span_app_stop; [|exact Hd|].
  2:{ destruct bang; cbn [bang_text String.append stops]; [reflexivity | exact Ht]. }
  rewrite (eqb_nonempty count Hne).
  destruct bang; cbn [bang_text String.append].
  - change (Ascii.eqb "!" "!") with true. cbv iota beta. now rewrite Htxt.
  - rewrite Hbang. cbv iota beta. now rewrite Htxt.
Qed.

(** The regular expression text of a pattern of one clause. *)
Lemma bban_regex_source_clause (count : string) (bang : bool) (t : ascii)
      (k : Re.char_class) (txt : string) :
  count <> "" -> Str.all is_digit count = true ->
  spec_class t = Some k -> _spec_to_re t = Some txt ->
  bban_regex_source (count ++ bang_text bang ++ String t "")
  = String "^" (txt ++ String "{" ((if bang then "" else "1,") ++ count ++ "}$")).
Proof.
  intros Hne Hd Ht Htxt. destruct (spec_not_digit t k Ht) as [Hnd Hnb].
  unfold bban_regex_source.
  destruct (String.length (count ++ bang_text bang ++ String t "")) as [|fuel] eqn:Hf.
  { destruct count; [congruence | discriminate Hf]. }
  cbn [re_sub_spec].
  rewrite (match_spec_re_clause count bang t txt "" Hne Hd Hnd Hnb Htxt).
  rewrite re_sub_spec_empty, app_nil_r. unfold convert.
  change ("^" ++ (txt ++ (if bang then "{" ++ count ++ "}" else "{1," ++ count ++ "}")) ++ "$")
    with (String "^" ((txt ++ (if bang then "{" ++ count ++ "}" else "{1," ++ count ++ "}")) ++ "$")).
  f_equal. rewrite app_assoc. f_equal.
  destruct bang; cbn [String.append]; rewrite !app_assoc; reflexivity.
Qed.

Lemma parse_bounds_exact (count rest : string) :
  count <> "" -> Str.all is_digit count = true ->
  (Re.N_of_digits count < Re.MAXREPEAT)%N ->
  Re.parse_bounds (count ++ String "}" rest)
  = Ok (Re.N_of_digits count, Some (Re.N_of_digits count), rest).
Proof.
  intros Hne Hd Hmax. unfold Re.parse_bounds.
  rewrite span_app_stop; [|exact Hd|reflexivity].
  rewrite (eqb_nonempty count Hne).
  change (Ascii.eqb "}" "}") with true. cbv iota beta.
  destruct (N.leb_spec Re.MAXREPEAT (Re.N_of_digits count)); [lia | reflexivity].
Qed.

Lemma parse_bounds_range (count rest : string) :
  count <> "" -> Str.all is_digit count = true ->
  (1 <= Re.N_of_digits count < Re.MAXREPEAT)%N ->
  Re.parse_bounds (String "1" (String "," (count ++ String "}" rest)))
  = Ok (1%N, Some (Re.N_of_digits count), rest).
Proof.
  intros Hne Hd Hmax. unfold Re.parse_bounds.
  change (Str.span is_digit (String "1" (String "," (count ++ String "}" rest))))
    with ("1", String "," (count ++ String "}" rest)).
  cbv iota beta.
  change (String.eqb "1" "") with false.
  change (Ascii.eqb "," "}") with false.
  change (Ascii.eqb "," ",") with true. cbv iota beta.
  rewrite span_app_stop; [|exact Hd|reflexivity].
  rewrite (eqb_nonempty count Hne).
  change (Ascii.eqb "}" "}") with true.
  change (Re.N_of_digits "1") with 1%N. cbv iota beta.
  change ((Re.MAXREPEAT <=? 1)%N) with false. cbn [orb].
  destruct (N.leb_spec Re.MAXREPEAT (Re.N_of_digits count)); [lia|].
  destruct (N.ltb_spec (Re.N_of_digits count) 1); [lia | reflexivity].
Qed.

Lemma parse_pieces_atom (fuel : nat) (s : string) (k : Re.char_class) (r : string) :
  Re.parse_atom s = Some (k, r) ->
  Re.parse_pieces (S fuel) s
  = rbind (Re.parse_quant r) (fun '(lo, hi, r') =>
    rbind (Re.parse_pieces fuel r') (fun re =>
    Ok (Re.Regex (Re.Piece k lo hi :: Re.pieces re) (Re.eol re)))).
Proof.
  intros Hatom. cbn [Re.parse_pieces].
  destruct (String.eqb_spec s "") as [-> | _]; [discriminate Hatom|].
  destruct (String.eqb_spec s "$") as [-> | _]; [discriminate Hatom|].
  now rewrite Hatom.
Qed.

Lemma length_pos (a b : string) :
  a <> "" -> exists n, String.length (a ++ b) = S n.
Proof.
  intros H. destruct a as [|c a]; [congruence|].
  cbn [String.append String.length]. eauto.
Qed.

Lemma compile_anchored (body : string) :
  Re.compile (String "^" body) = Re.parse_pieces (S (String.length body)) body.
Proof. reflexivity. Qed.

Lemma parse_quant_brace (s : string) :
  Re.parse_quant (String "{" s) = Re.parse_bounds s.
Proof. reflexivity. Qed.

(** The regular expression of a pattern of one clause. *)
Lemma compile_clause (count : string) (bang : bool) (t : ascii) (k : Re.char_class) :
  count <> "" -> Str.all is_digit count = true -> spec_class t = Some k ->
  (Re.N_of_digits count < Re.MAXREPEAT)%N ->
  (bang = false -> (1 <= Re.N_of_digits count)%N) ->
  compile_bban_spec (count ++ bang_text bang ++ String t "")
  = Ok (Re.Regex [Re.Piece k (if bang then Re.N_of_digits count else 1%N)
                           (Some (Re.N_of_digits count))] true).
Proof.
  intros Hne Hd Ht Hmax Hmin.
  destruct (spec_text t k Ht) as (txt & Htxt & Htne & Hatom).
  unfold compile_bban_spec.
  rewrite (bban_regex_source_clause count bang t k txt Hne Hd Ht Htxt).
  rewrite compile_anchored.
  destruct (length_pos txt (String "{" ((if bang then "" else "1,") ++ count ++ "}$")) Htne)
    as [fuel Hfuel].
  rewrite Hfuel, (parse_pieces_atom _ _ k _ (Hatom _)), parse_quant_brace.
  destruct bang; cbn [String.append].
  - change (count ++ "}$") with (count ++ String "}" "$").
    rewrite parse_bounds_exact by assumption. reflexivity.
  - change (count ++ "}$") with (count ++ String "}" "$").
    rewrite parse_bounds_range
      by first [assumption | split; [now apply Hmin | exact Hmax]].
    reflexivity.
Qed.

(** A clause [0<type>] gives the repetition [{1,0}], which [re.compile]
    refuses. *)
Lemma compile_clause_zero (count : string) (t : ascii) (k : Re.char_class) :
  count <> "" -> Str.all is_digit count = true -> spec_class t = Some k ->
  Re.N_of_digits count = 0%N ->
  compile_bban_spec (count ++ String t "") = Err ReError.
Proof.
  intros Hne Hd Ht Hzero.
  destruct (spec_text t k Ht) as (txt & Htxt & Htne & Hatom).
  unfold compile_bban_spec.
  change (count ++ String t "") with (count ++ bang_text false ++ String t "").
  rewrite (bban_regex_source_clause count false t k txt Hne Hd Ht Htxt).
  rewrite compile_anchored.
  destruct (length_pos txt (String "{" ("1," ++ count ++ "}$")) Htne) as [fuel Hfuel].
  rewrite Hfuel, (parse_pieces_atom _ _ k _ (Hatom _)), parse_quant_brace.
  cbn [String.append]. unfold Re.parse_bounds.
  change (Str.span is_digit (String "1" (String "," (count ++ "}$"))))
    with ("1", String "," (count ++ "}$")).
  cbv iota beta.
  change (String.eqb "1" "") with false.
  change (Ascii.eqb "," "}") with false.
  change (Ascii.eqb "," ",") with true. cbv iota beta.
  change (count ++ "}$") with (count ++ String "}" "$").
  rewrite span_app_stop; [|exact Hd|reflexivity].
  rewrite (eqb_nonempty count Hne), Hzero.
  reflexivity.
Qed.

(** ** The matcher of a clause *)

(** C5. [add_bban_regex] anchors the expression with [^] and [$]: the
    matcher of [8!n], compiled from [^\d{8}$], accepts [12345678] and
    refuses seven digits, nine digits and eight digits followed by a
    letter.  But [$] also matches before a newline that ends the string,
    so the matcher accepts the nine characters [12345678] and a newline,
    which are not a string of exactly 8 digits. *)
Theorem clause_matcher_accepts_final_newline :
  bban_regex_source "8!n" = "^\d{8}$"
  /\ exists re,
       compile_bban_spec "8!n" = Ok re
       /\ Re.matches re "12345678" = true
       /\ Re.matches re "1234567" = false
       /\ Re.matches re "123456789" = false
       /\ Re.matches re "12345678A" = false
       /\ Re.matches re ("12345678" ++ String newline "") = true
       /\ String.length ("12345678" ++ String newline "") = 9%nat
       /\ Str.all is_digit ("12345678" ++ String newline "") = false.
Proof. split; [reflexivity|]. eexists. repeat split; vm_compute; reflexivity. Qed.

(** The matcher of a pattern of one clause [<count>[!]<type>], on strings
    of 8-bit characters: it accepts a run of characters of the class, of
    length [count] with [!] and 1 to [count] without, optionally followed
    by one final newline, and nothing else: [8!n] is 8 digits, [4n] 1 to 4
    digits, [3a] 1 to 3 uppercase letters; a matcher with a piece of
    minimum 1 or more rejects the empty string. *)
Theorem clause_matcher :
  (forall (count : string) (bang : bool) (t : ascii) (k : Re.char_class),
      count <> "" -> Str.all is_digit count = true -> spec_class t = Some k ->
      let n := Re.N_of_digits count in
      (n < Re.MAXREPEAT)%N -> (bang = false -> (1 <= n)%N) ->
      exists re,
        compile_bban_spec (count ++ bang_text bang ++ String t "") = Ok re
        /\ forall s,
            Re.matches re s = true
            <-> exists w,
                  (s = w \/ s = w ++ String newline "")
                  /\ Str.all (Re.in_class k) w = true
                  /\ ((if bang then n else 1) <= len w <= n)%N)
  /\ (exists re,
        compile_bban_spec "8!n" = Ok re
        /\ forall s,
            Re.matches re s = true
            <-> exists w,
                  (s = w \/ s = w ++ String newline "")
                  /\ Str.all is_digit w = true /\ String.length w = 8%nat)
  /\ (exists re,
        compile_bban_spec "4n" = Ok re
        /\ forall s,
            Re.matches re s = true
            <-> exists w,
                  (s = w \/ s = w ++ String newline "")
                  /\ Str.all is_digit w = true
                  /\ (1 <= String.length w <= 4)%nat)
  /\ (exists re,
        compile_bban_spec "3a" = Ok re
        /\ forall s,
            Re.matches re s = true
            <-> exists w,
                  (s = w \/ s = w ++ String newline "")
                  /\ Str.all is_upper w = true
                  /\ (1 <= String.length w <= 3)%nat)
  /\ (forall (bban_spec : string) (re : Re.regex),
        compile_bban_spec bban_spec = Ok re ->
        Exists (fun p => (1 <= Re.p_min p)%N) (Re.pieces re) ->
        Re.matches re "" = false).
Proof.
  split; [|split; [|split; [|split]]].
  - intros count bang t k Hne Hd Ht n Hmax Hmin. subst n.
    eexists. split; [exact (compile_clause count bang t k Hne Hd Ht Hmax Hmin)|].
    intros s. apply matches_single.
  - exists (Re.Regex [Re.Piece Re.Digit 8 (Some 8%N)] true).
    split; [reflexivity|]. intros s. rewrite matches_single.
    split; intros (w & Hs & Hw & Hlen); exists w; (split; [exact Hs|]);
      (split; [exact Hw|]); unfold len in *; lia.
  - exists (Re.Regex [Re.Piece Re.Digit 1 (Some 4%N)] true).
    split; [reflexivity|]. intros s. rewrite matches_single.
    split; intros (w & Hs & Hw & Hlen); exists w; (split; [exact Hs|]);
      (split; [exact Hw|]); unfold len in *; lia.
  - exists (Re.Regex [Re.Piece Re.Upper 1 (Some 3%N)] true).
    split; [reflexivity|]. intros s. rewrite matches_single.
    split; intros (w & Hs & Hw & Hlen); exists w; (split; [exact Hs|]);
      (split; [exact Hw|]); unfold len in *; lia.
  - intros bban_spec re _ Hex. unfold Re.matches.
    rewrite match_pieces_empty. apply not_true_is_false. intros Hall.
    rewrite forallb_forall in Hall. apply List.Exists_exists in Hex.
    destruct Hex as (p & Hin & Hp). apply Hall, N.eqb_eq in Hin. lia.
Qed.

Lemma clause_matcher_witness :
  exists re,
    compile_bban_spec ("10" ++ bang_text true ++ String "n" "") = Ok re
    /\ forall s,
        Re.matches re s = true
        <-> exists w,
              (s = w \/ s = w ++ String newline "")
              /\ Str.all (Re.in_class Re.Digit) w = true
              /\ (Re.N_of_digits "10" <= len w <= Re.N_of_digits "10")%N.
Proof.
  apply (proj1 clause_matcher "10" true "n"%char Re.Digit).
  - discriminate.
  - reflexivity.
  - reflexivity.
  - reflexivity.
  - discriminate.
Defined.

(** ** The pattern compiler on text that is no clause *)

Lemma parse_atom_plain (c : ascii) (rest : string) :
  is_plain c = true -> Re.parse_atom (String c rest) = Some (Re.Lit c, rest).
Proof.
  destruct c as [b0 b1 b2 b3 b4 b5 b6 b7].
  destruct b0, b1, b2, b3, b4, b5, b6, b7; intros H;
    try (cbv in H; discriminate H); reflexivity.
Qed.

Lemma parse_quant_plain (c : ascii) (rest : string) :
  is_plain c = true \/ c = "$"%char ->
  Re.parse_quant (String c rest) = Ok (1%N, Some 1%N, String c rest).
Proof.
  intros [H | ->]; [|reflexivity]. revert H.
  destruct c as [b0 b1 b2 b3 b4 b5 b6 b7].
  destruct b0, b1, b2, b3, b4, b5, b6, b7; intros H;
    try (cbv in H; discriminate H); reflexivity.
Qed.

(** Ordinary text followed by [$] is read as its characters, once each. *)
Lemma parse_pieces_literal (text : string) (fuel : nat) :
  Str.all is_plain text = true -> (String.length text < fuel)%nat ->
  Re.parse_pieces fuel (text ++ "$") = Ok (Re.Regex (literal_pieces text) true).
Proof.
  revert fuel; induction text as [|c text IH]; intros fuel Hp Hlen.
  - destruct fuel as [|fuel]; [cbn [String.length] in Hlen; lia | reflexivity].
  - destruct fuel as [|fuel]; [lia|].
    cbn [Str.all] in Hp. apply andb_true_iff in Hp as [Hc Ht].
    cbn [String.append String.length] in *.
    rewrite (parse_pieces_atom fuel _ (Re.Lit c) (text ++ "$") (parse_atom_plain c _ Hc)).
    assert (Hq : Re.parse_quant (text ++ "$") = Ok (1%N, Some 1%N, text ++ "$")).
    { destruct text as [|d text]; [reflexivity|].
      cbn [String.append]. apply parse_quant_plain. left.
      cbn [Str.all] in Ht. now apply andb_true_iff in Ht as [Hd _]. }
    rewrite Hq. cbn [rbind]. rewrite (IH fuel Ht) by lia. reflexivity.
Qed.

Lemma letter_not_digit (t : ascii) :
  is_letter t = true ->
  is_digit t = false /\ Ascii.eqb t "!" = false /\ is_plain t = true.
Proof.
  destruct t as [b0 b1 b2 b3 b4 b5 b6 b7].
  destruct b0, b1, b2, b3, b4, b5, b6, b7; intros H;
    try (cbv in H; discriminate H); repeat split.
Qed.

Lemma digit_plain (c : ascii) : is_digit c = true -> is_plain c = true.
Proof.
  intros H. unfold is_plain, is_alnum. rewrite H. now rewrite !orb_true_r.
Qed.

Lemma match_spec_re_unrecognised (ds : string) (bang : bool) (t : ascii) :
  Str.all is_digit ds = true ->
  is_digit t = false -> Ascii.eqb t "!" = false -> _spec_to_re t = None ->
  match_spec_re (ds ++ bang_text bang ++ String t "") = None.
Proof.
  intros Hd Ht Hbang Htxt. unfold match_spec_re.
  rewrite span_app_stop; [|exact Hd|].
  2:{ destruct bang; cbn [bang_text String.append stops]; [reflexivity | exact Ht]. }
  destruct (String.eqb ds ""); [reflexivity|].
  destruct bang; cbn [bang_text String.append].
  - change (Ascii.eqb "!" "!") with true. cbv iota beta. now rewrite Htxt.
  - rewrite Hbang. cbv iota beta. now rewrite Htxt.
Qed.

(** [re.sub] finds no clause in a clause of unrecognised type: the text is
    kept as it is. *)
Lemma re_sub_spec_unrecognised (ds : string) (bang : bool) (t : ascii) (fuel : nat) :
  Str.all is_digit ds = true ->
  is_digit t = false -> Ascii.eqb t "!" = false -> _spec_to_re t = None ->
  re_sub_spec fuel (ds ++ bang_text bang ++ String t "")
  = ds ++ bang_text bang ++ String t "".
Proof.
  intros Hd Ht Hbang Htxt.
  assert (Hlast : forall f, re_sub_spec f (String t "") = String t "").
  { intros [|f]; [reflexivity|]. cbn [re_sub_spec].
    pose proof (match_spec_re_unrecognised "" false t eq_refl Ht Hbang Htxt) as E.
    cbn [bang_text String.append] in E. rewrite E.
    now rewrite re_sub_spec_empty. }
  assert (Htail : forall f, re_sub_spec f (bang_text bang ++ String t "")
                            = bang_text bang ++ String t "").
  { intros f. destruct bang; cbn [bang_text String.append]; [|apply Hlast].
    destruct f as [|f]; [reflexivity|]. cbn [re_sub_spec].
    pose proof (match_spec_re_unrecognised "" true t eq_refl Ht Hbang Htxt) as E.
    cbn [bang_text String.append] in E. rewrite E.
    now rewrite Hlast. }
  revert fuel; induction ds as [|d ds IH]; intros fuel; [apply Htail|].
  destruct fuel as [|fuel]; [reflexivity|]. cbn [re_sub_spec].
  pose proof (match_spec_re_unrecognised (String d ds) bang t Hd Ht Hbang Htxt) as E.
  cbn [String.append] in *. rewrite E.
  cbn [Str.all] in Hd. apply andb_true_iff in Hd as [_ Hd].
  now rewrite (IH Hd).
Qed.

(** ** The pattern compiler validates nothing *)

(** C4, as stated, fails: the pattern [8!x] has a clause whose type
    character is none of [n], [a], [c], [e], and [0!n] a count that is not
    positive; both compile, and a matcher is attached to the
    specification. *)
Lemma unrecognised_type_char_compiles :
  _spec_to_re "x" = None
  /\ compile_bban_spec "8!x" = Ok (Re.Regex (literal_pieces "8!x") true)
  /\ add_bban_regex "XX" (Spec 7 "8!x" DE_positions None)
     = Ok (Spec 7 "8!x" DE_positions (Some (Re.Regex (literal_pieces "8!x") true)))
  /\ Re.matches (Re.Regex (literal_pieces "8!x") true) "8!x" = true
  /\ compile_bban_spec "0!n" = Ok (Re.Regex [Re.Piece Re.Digit 0 (Some 0%N)] true).
Proof. repeat split; vm_compute; reflexivity. Qed.

(** ** The remaining accessors on the scenario *)

Example DE_formatted :
  formatted {| _code := "DE89370400440532013000" |}
  = Ok ("DE89 3704 0044 0532 0130 00", {| _code := "DE89370400440532013000" |}).
Proof. vm_compute. reflexivity. Qed.

Example DE_bank_code :
  bank_code example_registry {| _code := "DE89370400440532013000" |}
  = Ok ("37040044", {| _code := "DE89370400440532013000" |}).
Proof. vm_compute. reflexivity. Qed.

Example DE_account_code :
  account_code example_registry {| _code := "DE89370400440532013000" |}
  = Ok ("0532013000", {| _code := "DE89370400440532013000" |}).
Proof. vm_compute. reflexivity. Qed.

Example formatted_empty : formatted_text "" = "".
Proof. reflexivity. Qed.

Example formatted_five : formatted_text "ABCDE" = "ABCD E".
Proof. reflexivity. Qed.

Example slice_int_negative : slice_int (-3) (-1) "ABCDE" = "CD".
Proof. reflexivity. Qed.

Example slice_int_crossed : slice_int 4 2 "ABCDE" = "".
Proof. reflexivity. Qed.

(** ** numerify: where it succeeds, what it raises, how it composes *)

Lemma index_alphabet_none (c : ascii) :
  is_upper_alnum c = false -> Str.index c _alphabet = None.
Proof.
  destruct c as [b0 b1 b2 b3 b4 b5 b6 b7].
  destruct b0, b1, b2, b3, b4, b5, b6, b7; vm_compute; intros H;
    try discriminate H; reflexivity.
Qed.

Lemma digit_value_range (c : ascii) :
  is_digit c = true -> 0 <= digit_value c <= 9.
Proof.
  destruct c as [b0 b1 b2 b3 b4 b5 b6 b7].
  destruct b0, b1, b2, b3, b4, b5, b6, b7; vm_compute; intros H;
    try discriminate H; split; discriminate.
Qed.

Lemma digits_value_nonneg (r : string) (acc z : Z) :
  0 <= acc -> digits_value acc r = Some z -> 0 <= z.
Proof.
  revert acc; induction r as [|c r IH]; cbn [digits_value]; intros acc Hacc H.
  - injection H as <-. exact Hacc.
  - destruct (is_digit c) eqn:Hc; [|discriminate].
    apply (IH (10 * acc + digit_value c)); [|exact H].
    pose proof (digit_value_range c Hc). lia.
Qed.

Lemma numerify_digits_error (s : string) :
  Str.all is_upper_alnum s = false -> numerify_digits s = Err SubstringNotFound.
Proof.
  induction s as [|c s IH]; cbn [Str.all numerify_digits]; [discriminate|].
  destruct (is_upper_alnum c) eqn:Hc; cbn [andb]; intros Hs.
  - destruct (index_alphabet c Hc) as (i & -> & _). now rewrite (IH Hs).
  - now rewrite (index_alphabet_none c Hc).
Qed.

(** [numerify] returns a number exactly on the non-empty strings over
    [0-9A-Z], and the number is not negative. *)
Theorem numerify_succeeds_iff (s : string) :
  ((exists n, numerify s = Ok n)
   <-> s <> "" /\ Str.all is_upper_alnum s = true)
  /\ (forall n, numerify s = Ok n -> 0 <= n).
Proof.
  split; [split|].
  - intros [n Hn]. unfold numerify in Hn.
    destruct (numerify_digits s) as [r|] eqn:Hr; [|discriminate].
    split; [|exact (numerify_digits_inv s r Hr)].
    intros ->. cbn [numerify_digits] in Hr. injection Hr as <-. discriminate Hn.
  - intros [Hne Hall]. destruct (numerify_ok s Hall Hne) as (n & _ & Hn & _).
    now exists n.
  - intros n Hn. unfold numerify in Hn.
    destruct (numerify_digits s) as [r|]; [|discriminate].
    cbn [rbind] in Hn. unfold int_of_string in Hn.
    destruct r as [|c r]; [discriminate|].
    destruct (digits_value 0 (String c r)) as [z|] eqn:Hz; [|discriminate].
    injection Hn as <-.
    apply (digits_value_nonneg (String c r) 0 z); [lia | exact Hz].
Qed.

(** What [numerify] raises: [int('')] fails on the empty string, and
    [_alphabet.index] on a string with a character outside [0-9A-Z],
    lowercase letters and spaces included. *)
Theorem numerify_errors (s : string) :
  (s = "" -> numerify s = Err InvalidLiteral)
  /\ (Str.all is_upper_alnum s = false -> numerify s = Err SubstringNotFound).
Proof.
  split.
  - now intros ->.
  - intros Hs. unfold numerify. now rewrite (numerify_digits_error s Hs).
Qed.

Lemma numerify_errors_witness :
  numerify "" = Err InvalidLiteral
  /\ numerify "DE89 3704" = Err SubstringNotFound.
Proof.
  split.
  - apply (proj1 (numerify_errors "")). reflexivity.
  - apply (proj2 (numerify_errors "DE89 3704")). reflexivity.
Defined.

Lemma digits_value_shift (r : string) (acc acc' x : Z) :
  digits_value acc r = Some x ->
  digits_value acc' r = Some (x + (acc' - acc) * 10 ^ Z.of_nat (String.length r)).
Proof.
  revert acc acc' x; induction r as [|c r IH]; cbn [digits_value String.length];
    intros acc acc' x H.
  - injection H as <-. f_equal. change (10 ^ Z.of_nat 0) with 1. lia.
  - destruct (is_digit c); [|discriminate].
    rewrite (IH _ (10 * acc' + digit_value c) _ H). f_equal.
    rewrite Nat2Z.inj_succ, Z.pow_succ_r by lia. ring.
Qed.

Lemma index_expansion (c : ascii) (i : nat) :
  Str.index c _alphabet = Some i ->
  Z.of_nat (String.length (str_of_nat i)) = if is_digit c then 1 else 2.
Proof.
  destruct c as [b0 b1 b2 b3 b4 b5 b6 b7].
  destruct b0, b1, b2, b3, b4, b5, b6, b7; vm_compute; intros H;
    try discriminate H; injection H as <-; reflexivity.
Qed.

Lemma numerify_digits_length (s r : string) :
  numerify_digits s = Ok r -> Z.of_nat (String.length r) = expansion_length s.
Proof.
  revert r; induction s as [|c s IH]; cbn [numerify_digits expansion_length]; intros r H.
  - now injection H as <-.
  - destruct (Str.index c _alphabet) as [i|] eqn:Hi; [|discriminate].
    destruct (numerify_digits s) as [r'|]; [|discriminate].
    cbn [rbind] in H. injection H as <-.
    rewrite length_app, Nat2Z.inj_add, (IH r' eq_refl), (index_expansion c i Hi).
    reflexivity.
Qed.

(** The number of a concatenation: the number of the first part, shifted by
    the decimal digits the second part expands to, plus the number of the
    second part. *)
Theorem numerify_app (a b : string) (na nb : Z) :
  numerify a = Ok na -> numerify b = Ok nb ->
  numerify (a ++ b) = Ok (na * 10 ^ expansion_length b + nb).
Proof.
  intros Ha Hb. unfold numerify in *.
  destruct (numerify_digits a) as [ra|] eqn:Hra; [|discriminate].
  destruct (numerify_digits b) as [rb|] eqn:Hrb; [|discriminate].
  cbn [rbind] in *. rewrite (numerify_digits_app a b ra rb Hra Hrb). cbn [rbind].
  rewrite <- (numerify_digits_length b rb Hrb).
  unfold int_of_string in *.
  destruct ra as [|x ra]; [discriminate|].
  destruct rb as [|y rb]; [discriminate|].
  destruct (digits_value 0 (String x ra)) as [za|] eqn:Hza; [|discriminate].
  destruct (digits_value 0 (String y rb)) as [zb|] eqn:Hzb; [|discriminate].
  injection Ha as <-. injection Hb as <-.
  cbn [String.append].
  change (String x (ra ++ String y rb)) with (String x ra ++ String y rb).
  rewrite (digits_value_app _ _ _ _ Hza).
  rewrite (digits_value_shift _ 0 za zb Hzb). f_equal. ring.
Qed.

Lemma numerify_app_witness :
  numerify ("370400440532013000" ++ "DE89")
  = Ok (370400440532013000 * 10 ^ expansion_length "DE89" + 131489).
Proof.
  apply (numerify_app "370400440532013000" "DE89"); reflexivity.
Defined.

Lemma numerify_succeeds_iff_witness :
  (exists n, numerify "DE89" = Ok n) /\ 0 <= 131489.
Proof.
  split.
  - apply (proj1 (numerify_succeeds_iff "DE89")). split; [discriminate | reflexivity].
  - apply (proj2 (numerify_succeeds_iff "DE89") 131489). reflexivity.
Defined.

(** ** The checksum digits and the skeleton *)

Lemma format_2d_one_digit (v : Z) :
  2 <= v < 10 ->
  exists c2, format_2d v = String " " (String c2 "")
             /\ is_digit c2 = true /\ digit_value c2 = v.
Proof.
  intros Hv.
  assert (H : v = 2 \/ v = 3 \/ v = 4 \/ v = 5 \/ v = 6 \/ v = 7 \/ v = 8 \/ v = 9)
    by lia.
  repeat (destruct H as [-> | H]; [eexists; repeat split |]).
  subst v. eexists. repeat split.
Qed.

(** What ['{:2d}'] prints for a value from 2 to 98. *)
Lemma format_2d_shape (v : Z) :
  2 <= v <= 98 ->
  exists c1 c2,
    format_2d v = String c1 (String c2 "")
    /\ is_digit c2 = true
    /\ ((10 <= v /\ is_digit c1 = true
         /\ 10 * digit_value c1 + digit_value c2 = v)
        \/ (v < 10 /\ c1 = " "%char /\ digit_value c2 = v)).
Proof.
  intros Hv. destruct (Z_lt_le_dec v 10) as [Hlt | Hge].
  - destruct (format_2d_one_digit v) as (c2 & -> & H2 & Hval); [lia|].
    exists " "%char, c2. auto 10.
  - destruct (format_2d_two_digits v) as (c1 & c2 & -> & H1 & H2 & Hval); [lia|].
    exists c1, c2. auto 10.
Qed.

(** [_calc_checksum_digits] returns, when [numerify] accepts the BBAN and
    the country code, two characters for a value from 2 to 98: its two
    digits from 10 on, and a space and its digit below 10; it leaves the
    object as it was. *)
Theorem calc_checksum_digits_shape (self self' : IBAN) (digits : string) :
  _calc_checksum_digits self = Ok (digits, self') ->
  self' = self
  /\ exists v c1 c2,
       2 <= v <= 98
       /\ digits = String c1 (String c2 "")
       /\ is_digit c2 = true
       /\ ((10 <= v /\ is_digit c1 = true
            /\ 10 * digit_value c1 + digit_value c2 = v)
           \/ (v < 10 /\ c1 = " "%char /\ digit_value c2 = v)).
Proof.
  rewrite _calc_checksum_digits_eq.
  destruct (numerify _) as [n|]; [|discriminate]. cbn [rbind].
  intros H. injection H as <- <-. split; [reflexivity|].
  set (v := 98 - (n * 100) mod 97).
  assert (Hv : 2 <= v <= 98).
  { subst v. pose proof (Z.mod_pos_bound (n * 100) 97). lia. }
  exists v. destruct (format_2d_shape v Hv) as (c1 & c2 & -> & H2 & Hcases).
  exists c1, c2. auto.
Qed.

Lemma calc_checksum_digits_shape_witness :
  {| _code := "DE??370400440532013000" |} = {| _code := "DE??370400440532013000" |}
  /\ exists v c1 c2,
       2 <= v <= 98
       /\ "89" = String c1 (String c2 "")
       /\ is_digit c2 = true
       /\ ((10 <= v /\ is_digit c1 = true
            /\ 10 * digit_value c1 + digit_value c2 = v)
           \/ (v < 10 /\ c1 = " "%char /\ digit_value c2 = v)).
Proof.
  apply (calc_checksum_digits_shape {| _code := "DE??370400440532013000" |}).
  reflexivity.
Defined.

Lemma skeleton_shape (c : string) :
  String.eqb (Str.take 2 (Str.drop 2 c)) "??" = true ->
  exists a b r, c = String a (String b (String "?" (String "?" r))).
Proof.
  intros H. apply String.eqb_eq in H.
  destruct c as [|a [|b [|x [|y r]]]]; try discriminate H.
  cbn [Str.take Str.drop] in H. injection H as -> ->. eauto.
Qed.

(** [_parse] resolves a skeleton once and for all: after it the checksum
    digits are not ['??'], and a second [_parse] changes nothing. *)
Theorem parse_idempotent (iban iban' : string) (self self' : IBAN) :
  _parse iban self = Ok (tt, self') ->
  (checksum_digits self = Ok ("??", self) ->
   forall d, checksum_digits self' = Ok (d, self') -> d <> "??")
  /\ _parse iban' self' = Ok (tt, self').
Proof.
  intros H. rewrite _parse_eq in H.
  destruct (String.eqb (Str.take 2 (Str.drop 2 (_code self))) "??") eqn:Hcd.
  - destruct (skeleton_shape _ Hcd) as (a & b & r & Hc).
    destruct (numerify _) as [n|]; [|discriminate]. cbn [rbind] in H.
    destruct (format_2d_shape (98 - (n * 100) mod 97)) as (c1 & c2 & Hd & H2 & _).
    { pose proof (Z.mod_pos_bound (n * 100) 97). lia. }
    injection H as <-. rewrite Hd, Hc.
    change (Str.take 2 (String a (String b (String "?" (String "?" r)))))
      with (String a (String b "")).
    change (Str.drop 4 (String a (String b (String "?" (String "?" r))))) with r.
    cbn [String.append].
    assert (Hne : String.eqb (String c1 (String c2 "")) "??" = false).
    { apply String.eqb_neq. intros E. injection E as _ ->. discriminate H2. }
    split.
    + intros _ d Hd'. rewrite checksum_digits_eq in Hd'. apply Ok_fst_inj in Hd'.
      cbn [_code Str.take Str.drop] in Hd'. subst d. now apply String.eqb_neq.
    + rewrite _parse_eq. cbn [_code].
      change (Str.take 2 (Str.drop 2 (String a (String b (String c1 (String c2 r))))))
        with (String c1 (String c2 "")).
      now rewrite Hne.
  - injection H as <-. split.
    + intros Hq. rewrite checksum_digits_eq in Hq. apply Ok_fst_inj in Hq.
      rewrite Hq in Hcd. discriminate Hcd.
    + rewrite _parse_eq. now rewrite Hcd.
Qed.

Lemma parse_idempotent_witness :
  _parse "" {| _code := "DE89370400440532013000" |}
  = Ok (tt, {| _code := "DE89370400440532013000" |}).
Proof.
  apply (parse_idempotent "DE??370400440532013000" ""
           {| _code := "DE??370400440532013000" |}).
  reflexivity.
Defined.

(** ** What validate accepts *)

Lemma validate_result (registry : gmap string spec) (self : IBAN)
      (x : bool * IBAN) :
  validate registry self = Ok x -> x = (true, self).
Proof.
  rewrite validate_eq.
  destruct (validate_characters self); [|discriminate].
  destruct (validate_length registry self); [|discriminate].
  destruct (validate_format registry self); [|discriminate].
  destruct (validate_checksum self); [|discriminate].
  now intros H; injection H as <-.
Qed.

Lemma validate_inv (registry : gmap string spec) (c : string) :
  validate registry {| _code := c |} = Ok (true, {| _code := c |}) ->
  exists a b d e r sp re n,
    c = String a (String b (String d (String e r)))
    /\ is_upper a = true /\ is_upper b = true
    /\ is_digit d = true /\ is_digit e = true
    /\ registry !! String a (String b "") = Some sp
    /\ iban_length sp = Z.of_nat (String.length c)
    /\ regex sp = Some re
    /\ Re.matches re r = true
    /\ numerify (r ++ String a (String b (String d (String e "")))) = Ok n
    /\ n mod 97 = 1.
Proof.
  rewrite validate_eq, validate_characters_eq, validate_length_eq,
    validate_format_eq, validate_checksum_eq. cbn [_code].
  destruct (Re.matches characters_re c) eqn:Hchars; [|discriminate].
  apply matches_characters_re in Hchars.
  destruct Hchars as (a & b & d & e & r & -> & Ha & Hb & Hd & He).
  change (Str.take 2 (String a (String b (String d (String e r)))))
    with (String a (String b "")).
  change (Str.drop 4 (String a (String b (String d (String e r))))) with r.
  change (Str.take 4 (String a (String b (String d (String e r)))))
    with (String a (String b (String d (String e "")))).
  unfold _get_iban_spec.
  destruct (registry !! String a (String b "")) as [sp|] eqn:Hsp; [|discriminate].
  cbn [rbind].
  destruct (Z.eqb_spec (iban_length sp)
              (Z.of_nat (String.length (String a (String b (String d (String e r)))))));
    [|discriminate].
  destruct (regex sp) as [re|] eqn:Hre; [|discriminate].
  destruct (Re.matches re r) eqn:Hm; [|discriminate].
  destruct (numerify _) as [n|] eqn:Hn; [|discriminate]. cbn [rbind].
  destruct (Z.eqb_spec (n mod 97) 1); [|discriminate].
  intros _. exists a, b, d, e, r, sp, re, n. repeat split; assumption.
Qed.

(** [validate] returns [True] exactly on the compact strings that start
    with two uppercase letters and two digits, whose country is in the
    registry with this length, whose BBAN the pattern of the country
    matches, and whose number is 1 modulo 97; it never changes the
    object. *)
Theorem validate_iff (registry : gmap string spec) (self : IBAN) :
  (forall x, validate registry self = Ok x -> x = (true, self))
  /\ (validate registry self = Ok (true, self)
      <-> exists a b d e r sp re n,
            _code self = String a (String b (String d (String e r)))
            /\ is_upper a = true /\ is_upper b = true
            /\ is_digit d = true /\ is_digit e = true
            /\ registry !! String a (String b "") = Some sp
            /\ iban_length sp = Z.of_nat (String.length (_code self))
            /\ regex sp = Some re
            /\ Re.matches re r = true
            /\ numerify (r ++ String a (String b (String d (String e "")))) = Ok n
            /\ n mod 97 = 1).
Proof.
  split; [apply validate_result|]. destruct self as [c]. cbn [_code]. split.
  - apply validate_inv.
  - intros (a & b & d & e & r & sp & re & n & -> & Ha & Hb & Hd & He
            & Hsp & Hlen & Hre & Hm & Hn & Hmod).
    apply (validate_ok registry _ sp re n); try assumption.
    apply matches_characters_re. exists a, b, d, e, r. auto.
Qed.

(** A compact string that passes [validate] holds only characters of
    [0-9A-Z]: the character check tests the first four, and the checksum
    check cannot compute the number of any other character. *)
Theorem valid_iban_alphabet (registry : gmap string spec) (self : IBAN) :
  validate registry self = Ok (true, self) ->
  Str.all is_upper_alnum (_code self) = true
  /\ (4 <= String.length (_code self))%nat.
Proof.
  intros H. destruct self as [c]. cbn [_code]. apply validate_inv in H.
  destruct H as (a & b & d & e & r & sp & re & n & Hc & _ & _ & _ & _
                 & _ & _ & _ & _ & Hn & _).
  rewrite Hc. split; [|cbn [String.length]; lia].
  unfold numerify in Hn.
  destruct (numerify_digits _) as [ds|] eqn:Hds; [|discriminate].
  apply numerify_digits_inv in Hds. rewrite all_app in Hds.
  apply andb_true_iff in Hds as [Hr H4]. cbn [Str.all] in *.
  repeat (apply andb_true_iff in H4 as [? H4]).
  repeat (apply andb_true_iff; split); assumption.
Qed.

Lemma valid_iban_alphabet_witness :
  Str.all is_upper_alnum "DE89370400440532013000" = true
  /\ (4 <= String.length "DE89370400440532013000")%nat.
Proof.
  apply (valid_iban_alphabet example_registry {| _code := "DE89370400440532013000" |}).
  vm_compute. reflexivity.
Defined.

Lemma validate_iff_witness :
  (true, {| _code := "DE89370400440532013000" |})
  = (true, {| _code := "DE89370400440532013000" |}).
Proof.
  apply (proj1 (validate_iff example_registry {| _code := "DE89370400440532013000" |})).
  vm_compute. reflexivity.
Defined.

(** The country of a compact string that starts with two uppercase letters
    and two digits is looked up by the length check: [validate] raises
    [UnknownCountry] when the registry has no entry for it. *)
Theorem validate_unknown_country (registry : gmap string spec) (self : IBAN) :
  validate_characters self = Ok (tt, self) ->
  registry !! Str.take 2 (_code self) = None ->
  validate registry self = Err (UnknownCountry (Str.take 2 (_code self))).
Proof.
  intros Hc Hreg. rewrite validate_eq, Hc, validate_length_eq.
  unfold _get_iban_spec. now rewrite Hreg.
Qed.

Lemma validate_unknown_country_witness :
  validate example_registry {| _code := "FR7630006000011234567890189" |}
  = Err (UnknownCountry "FR").
Proof.
  apply (validate_unknown_country example_registry
           {| _code := "FR7630006000011234567890189" |}); reflexivity.
Defined.

(** ** The constructor *)

Lemma IBAN_init_valid (registry : gmap string spec) (iban : string) (self : IBAN) :
  IBAN_init registry iban false = Ok self ->
  validate registry self = Ok (true, self).
Proof.
  rewrite IBAN_init_eq.
  destruct (_parse iban _) as [[u self0]|]; [|discriminate].
  destruct (validate registry self0) as [x|] eqn:Hv; [|discriminate].
  intros E. injection E as ->. now rewrite (validate_result _ _ _ Hv) in Hv.
Qed.

(** An IBAN that the constructor returns without [allow_invalid], or that
    [generate] returns, passes [validate]. *)
Theorem constructed_is_valid (registry : gmap string spec) (self : IBAN) :
  (forall iban, IBAN_init registry iban false = Ok self ->
                validate registry self = Ok (true, self))
  /\ (forall cc bank account,
        generate registry cc bank account = Ok self ->
        validate registry self = Ok (true, self)).
Proof.
  split.
  - intros iban. apply IBAN_init_valid.
  - intros cc bank account. unfold generate.
    destruct (generate_skeleton registry cc bank account) as [iban|]; [|discriminate].
    cbn [rbind]. apply IBAN_init_valid.
Qed.

Lemma constructed_is_valid_witness :
  validate example_registry {| _code := "DE89370400440532013000" |}
  = Ok (true, {| _code := "DE89370400440532013000" |}).
Proof.
  apply (proj2 (constructed_is_valid example_registry
                  {| _code := "DE89370400440532013000" |})
           "DE" "37040044" "532013000").
  vm_compute. reflexivity.
Defined.

(** With [allow_invalid] the constructor validates nothing and does not
    read the registry: unless the text is a skeleton, it stores the
    normalised text, whatever it is. *)
Theorem allow_invalid_skips_validation
  (registry registry' : gmap string spec) (iban : string) :
  IBAN_init registry iban true = IBAN_init registry' iban true
  /\ (String.eqb (Str.take 2 (Str.drop 2 (Base.clean iban))) "??" = false ->
      IBAN_init registry iban true = Ok {| _code := Base.clean iban |}).
Proof.
  rewrite !IBAN_init_eq. split; [reflexivity|].
  intros H. rewrite _parse_eq. cbn [_code]. now rewrite H.
Qed.

Lemma allow_invalid_skips_validation_witness :
  IBAN_init example_registry "not an iban" true = Ok {| _code := "NOTANIBAN" |}.
Proof.
  apply (proj2 (allow_invalid_skips_validation example_registry example_registry
                  "not an iban")).
  reflexivity.
Defined.

(** ** formatted *)

Lemma filter_cons (p : ascii -> bool) (c : ascii) (s : string) :
  Str.filter p (String c s)
  = if p c then String c (Str.filter p s) else Str.filter p s.
Proof. reflexivity. Qed.

Lemma filter_app (p : ascii -> bool) (a b : string) :
  Str.filter p (a ++ b) = Str.filter p a ++ Str.filter p b.
Proof.
  induction a as [|c a IH]; [reflexivity|].
  cbn [String.append]. rewrite !filter_cons, IH. now destruct (p c).
Qed.

Lemma range4_step (n : nat) :
  range4 (S (S (S (S n)))) = 0%nat :: List.map (fun i => (4 + i)%nat) (range4 n).
Proof.
  unfold range4.
  replace (S (S (S (S n))) + 3)%nat with ((n + 3) + 1 * 4)%nat by lia.
  rewrite Nat.div_add by lia.
  replace ((n + 3) / 4 + 1)%nat with (S ((n + 3) / 4)) by lia.
  cbn [seq List.map]. f_equal.
  rewrite <- seq_shift, !List.map_map. apply List.map_ext. intros k. lia.
Qed.

Lemma range4_nonempty (n : nat) : range4 (S n) <> [].
Proof.
  unfold range4. intros H. apply (f_equal (@List.length nat)) in H.
  rewrite List.length_map, List.length_seq in H. cbn [List.length] in H.
  assert (1 <= (S n + 3) / 4)%nat; [|lia].
  apply Nat.div_le_lower_bound; lia.
Qed.

Lemma formatted_text_short (c : string) :
  (String.length c <= 4)%nat -> formatted_text c = c.
Proof.
  destruct c as [|a [|b [|d [|e [|f r]]]]]; cbn [String.length]; intros H;
    try reflexivity; lia.
Qed.

Lemma formatted_text_step (a b d e : ascii) (r : string) :
  r <> "" ->
  formatted_text (String a (String b (String d (String e r))))
  = String a (String b (String d (String e (String " " (formatted_text r))))).
Proof.
  intros Hr. unfold formatted_text. cbn [String.length].
  rewrite range4_step. cbn [List.map]. rewrite List.map_map.
  rewrite (List.map_ext
             (fun i => Str.slice (4 + i) (Some (4 + i + 4)%nat)
                         (String a (String b (String d (String e r)))))
             (fun i => Str.slice i (Some (i + 4)%nat) r)) by reflexivity.
  destruct r as [|x r]; [congruence|]. cbn [String.length].
  destruct (List.map _ (range4 (S (String.length r)))) as [|w ws] eqn:Hl.
  { apply List.map_eq_nil in Hl. now apply range4_nonempty in Hl. }
  reflexivity.
Qed.

(** A string is empty, has at most 4 characters, or starts with 4
    characters before a non-empty rest. *)
Lemma blocks_ind (P : string -> Prop) :
  (forall c, (String.length c <= 4)%nat -> P c) ->
  (forall a b d e r, r <> "" -> P r ->
                     P (String a (String b (String d (String e r))))) ->
  forall s, P s.
Proof.
  intros Hshort Hstep s.
  assert (H : forall n s, (String.length s <= n)%nat -> P s);
    [|now apply (H (String.length s))].
  clear s. induction n as [|n IH]; intros s Hn.
  - apply Hshort. lia.
  - destruct s as [|a [|b [|d [|e [|x r]]]]];
      try (apply Hshort; cbn [String.length]; lia).
    apply Hstep; [discriminate|]. apply IH. cbn [String.length] in *. lia.
Qed.

Lemma filter_formatted (c : string) :
  Str.filter not_space (formatted_text c) = Str.filter not_space c.
Proof.
  induction c as [c Hc | a b d e r Hr IH] using blocks_ind.
  - now rewrite (formatted_text_short c Hc).
  - rewrite (formatted_text_step a b d e r Hr).
    rewrite !filter_cons, IH. change (not_space " ") with false. reflexivity.
Qed.

(** The character of the formatted text at an index: a space at the
    indices 4, 9, 14, ..., and elsewhere the characters of the compact
    string, in order. *)
Lemma formatted_text_get (c : string) (i : nat) :
  (i < String.length (formatted_text c))%nat ->
  String.get i (formatted_text c)
  = if (i mod 5 =? 4)%nat then Some " "%char else String.get (i - i / 5) c.
Proof.
  revert i. induction c as [c Hc | a b d e r Hr IH] using blocks_ind; intros i Hi.
  - rewrite (formatted_text_short c Hc) in *.
    assert (Hi4 : (i < 4)%nat) by lia.
    rewrite (Nat.mod_small i 5), (Nat.div_small i 5), Nat.sub_0_r by lia.
    destruct (Nat.eqb_spec i 4); [lia | reflexivity].
  - rewrite (formatted_text_step a b d e r Hr) in *.
    destruct i as [|[|[|[|[|j]]]]]; try reflexivity.
    cbn [String.length] in Hi.
    change (String.get (S (S (S (S (S j)))))
              (String a (String b (String d (String e (String " " (formatted_text r)))))))
      with (String.get j (formatted_text r)).
    rewrite IH by lia.
    replace (S (S (S (S (S j))))) with (j + 1 * 5)%nat by lia.
    rewrite Nat.Div0.mod_add, Nat.div_add by lia.
    destruct (j mod 5 =? 4)%nat; [reflexivity|].
    assert (Hdiv : (j / 5 <= j)%nat) by (apply Nat.Div0.div_le_upper_bound; lia).
    replace (j + 1 * 5 - (j / 5 + 1))%nat with (S (S (S (S (j - j / 5))))) by lia.
    reflexivity.
Qed.

(** [formatted] puts one space between consecutive groups of four
    characters and none at the ends: a compact string of at most 4
    characters is left as it is; a longer one gives its first 4 characters,
    a space, and the formatted text of the rest; so the formatted text has
    a space at the indices 4, 9, 14, ... and the characters of the compact
    string, in order, elsewhere.  Without its spaces it is the compact
    string without its spaces, and it is longer by one space for each group
    of four after the first. *)
Theorem formatted_adds_spaces (c : string) :
  Str.filter not_space (formatted_text c) = Str.filter not_space c
  /\ String.length (formatted_text c)
     = (String.length c + (String.length c - 1) / 4)%nat
  /\ ((String.length c <= 4)%nat -> formatted_text c = c)
  /\ (forall (a b d e : ascii) (r : string),
        c = String a (String b (String d (String e r))) -> r <> "" ->
        formatted_text c
        = String a (String b (String d (String e (String " " (formatted_text r))))))
  /\ (forall i : nat,
        (i < String.length (formatted_text c))%nat ->
        String.get i (formatted_text c)
        = if (i mod 5 =? 4)%nat then Some " "%char else String.get (i - i / 5) c).
Proof.
  split; [apply filter_formatted|]. split; [|split; [|split]].
  - induction c as [c Hc | a b d e r Hr IH] using blocks_ind.
    + rewrite (formatted_text_short c Hc).
      rewrite Nat.div_small by lia. lia.
    + rewrite (formatted_text_step a b d e r Hr).
      cbn [String.length]. rewrite IH.
      destruct r as [|x r]; [congruence|]. cbn [String.length].
      replace (S (S (S (S (S (String.length r))))) - 1)%nat
        with ((S (String.length r) - 1) + 1 * 4)%nat by lia.
      rewrite Nat.div_add by lia. lia.
  - apply formatted_text_short.
  - intros a b d e r -> Hr. now apply formatted_text_step.
  - apply formatted_text_get.
Qed.

Lemma formatted_adds_spaces_witness :
  formatted_text "00" = "00"
  /\ formatted_text "DE89370400440532013000"
     = String "D" (String "E" (String "8" (String "9" (String " "
         (formatted_text "370400440532013000")))))
  /\ String.get 4 (formatted_text "DE89370400440532013000") = Some " "%char
  /\ String.get 5 (formatted_text "DE89370400440532013000")
     = String.get 4 "DE89370400440532013000".
Proof.
  split; [|split; [|split]].
  - apply (proj1 (proj2 (proj2 (formatted_adds_spaces "00")))).
    cbn [String.length]. lia.
  - apply (proj1 (proj2 (proj2 (proj2 (formatted_adds_spaces "DE89370400440532013000"))))
             "D"%char "E"%char "8"%char "9"%char "370400440532013000" eq_refl).
    discriminate.
  - apply (proj2 (proj2 (proj2 (proj2 (formatted_adds_spaces "DE89370400440532013000")))) 4%nat).
    apply Nat.ltb_lt. reflexivity.
  - apply (proj2 (proj2 (proj2 (proj2 (formatted_adds_spaces "DE89370400440532013000")))) 5%nat).
    apply Nat.ltb_lt. reflexivity.
Defined.




(** ** bank_code, branch_code, account_code *)

Lemma take_ge (n : nat) (s : string) :
  (String.length s <= n)%nat -> Str.take n s = s.
Proof.
  revert s; induction n as [|n IH]; intros [|c s]; cbn [String.length Str.take];
    intros H; try reflexivity; try lia.
  rewrite IH; [reflexivity | lia].
Qed.

Lemma drop_ge (n : nat) (s : string) :
  (String.length s <= n)%nat -> Str.drop n s = "".
Proof.
  revert s; induction n as [|n IH]; intros [|c s]; cbn [String.length Str.drop];
    intros H; try reflexivity; try lia.
  apply IH. lia.
Qed.

Lemma take_app_le (n : nat) (a b : string) :
  (n <= String.length a)%nat -> Str.take n (a ++ b) = Str.take n a.
Proof.
  revert a; induction n as [|n IH]; intros [|c a]; cbn [String.length];
    intros H; try lia.
  - now destruct b.
  - reflexivity.
  - cbn [String.append Str.take]. rewrite IH; [reflexivity | lia].
Qed.

(** A slice with bounds that are not negative. *)
Lemma slice_int_nonneg (start end_ : Z) (s : string) :
  0 <= start -> 0 <= end_ ->
  slice_int start end_ s
  = Str.drop (Z.to_nat start) (Str.take (Z.to_nat end_) s).
Proof.
  intros Hs He. unfold slice_int, slice_bound.
  destruct (Z.ltb_spec start 0) as [|_]; [lia|].
  destruct (Z.ltb_spec end_ 0) as [|_]; [lia|].
  rewrite !Z.max_r by lia.
  assert (Ht : Str.take (Z.to_nat (Z.min (Z.of_nat (String.length s)) end_)) s
               = Str.take (Z.to_nat end_) s).
  { destruct (Z.le_gt_cases end_ (Z.of_nat (String.length s))).
    - now rewrite Z.min_r by lia.
    - rewrite Z.min_l, Nat2Z.id by lia.
      rewrite take_length. symmetry. apply take_ge. lia. }
  rewrite Ht.
  destruct (Z.le_gt_cases start (Z.of_nat (String.length s))).
  - now rewrite Z.min_r by lia.
  - rewrite Z.min_l, Nat2Z.id by lia.
    rewrite !drop_ge; [reflexivity | |]; rewrite length_take; lia.
Qed.

Lemma _get_code_eq (registry : gmap string spec) (ct : code_type) (self : IBAN) :
  _get_code registry ct self
  = rbind (_get_iban_spec registry (Str.take 2 (_code self))) (fun sp =>
    Ok (slice_int (fst (positions sp ct)) (snd (positions sp ct))
                  (Str.drop 4 (_code self)), self)).
Proof.
  unfold _get_code, bind. rewrite spec_eq.
  destruct (_get_iban_spec _ _) as [sp|]; [|reflexivity]. cbn [rbind].
  destruct (positions sp ct) as [start end_]. now rewrite bban_eq.
Qed.

(** A component accessor raises [UnknownCountry] for a country that the
    registry does not have; for a known country it returns the characters
    of the BBAN at the positions of the component, as many as
    [code_length] says when the BBAN reaches that far and fewer when it is
    shorter, and leaves the object as it was. *)
Theorem get_code_slice
  (registry : gmap string spec) (ct : code_type) (self : IBAN) :
  (registry !! Str.take 2 (_code self) = None ->
   _get_code registry ct self = Err (UnknownCountry (Str.take 2 (_code self))))
  /\ (forall sp start end_,
        registry !! Str.take 2 (_code self) = Some sp ->
        positions sp ct = (start, end_) ->
        0 <= start <= end_ ->
        let b := Str.drop 4 (_code self) in
        let w := substring (Z.to_nat start) (Z.to_nat (end_ - start)) b in
        _get_code registry ct self = Ok (w, self)
        /\ Z.of_nat (String.length w) <= code_length sp ct
        /\ (end_ <= Z.of_nat (String.length b) ->
            Z.of_nat (String.length w) = code_length sp ct)).
Proof.
  split.
  - intros H. rewrite _get_code_eq. unfold _get_iban_spec. now rewrite H.
  - intros sp start end_ Hreg Hpos Hle. cbv zeta.
    rewrite _get_code_eq. unfold _get_iban_spec. rewrite Hreg. cbn [rbind].
    unfold code_length. rewrite Hpos. cbn [fst snd].
    rewrite slice_int_nonneg by lia.
    set (b := Str.drop 4 (_code self)).
    set (w := substring (Z.to_nat start) (Z.to_nat (end_ - start)) b).
    assert (Hw : Str.drop (Z.to_nat start) (Str.take (Z.to_nat end_) b) = w).
    { subst w. rewrite substring_take_drop.
      replace (Z.to_nat end_) with (Z.to_nat start + Z.to_nat (end_ - start))%nat by lia.
      apply drop_take. }
    rewrite Hw. split; [reflexivity|].
    rewrite <- Hw, length_drop, length_take. split; lia.
Qed.

Lemma get_code_slice_witness :
  bank_code example_registry {| _code := "DE89370400440532013000" |}
  = Ok ("37040044", {| _code := "DE89370400440532013000" |})
  /\ account_code example_registry {| _code := "FR7630006000011234567890189" |}
     = Err (UnknownCountry "FR").
Proof.
  split.
  - refine (proj1 (proj2 (get_code_slice example_registry BankCode
                            {| _code := "DE89370400440532013000" |})
                     DE_spec 0 8 _ _ _)); [reflexivity | reflexivity | lia].
  - apply (proj1 (get_code_slice example_registry AccountCode
                    {| _code := "FR7630006000011234567890189" |})).
    reflexivity.
Defined.

(** The codes that [generate] pads are read back by the accessors: when
    the ranges of the country follow one another from 0, [bank_code] and
    [branch_code] together are the padded bank code and [account_code] is
    the padded account code. *)
Theorem generated_components
  (registry : gmap string spec) (cc digits bank account : string) (sp : spec)
  (b1 b2 b3 : Z) :
  registry !! cc = Some sp ->
  String.length cc = 2%nat -> String.length digits = 2%nat ->
  positions sp BankCode = (0, b1) ->
  positions sp BranchCode = (b1, b2) ->
  positions sp AccountCode = (b2, b3) ->
  0 <= b1 <= b2 -> b2 <= b3 ->
  let bb := code_length sp BankCode + code_length sp BranchCode in
  let al := code_length sp AccountCode in
  Z.of_nat (String.length bank) <= bb ->
  Z.of_nat (String.length account) <= al ->
  let padded_bank := Str.rjust bank bb "0" in
  let padded_account := Str.rjust account al "0" in
  let iban := {| _code := cc ++ digits ++ padded_bank ++ padded_account |} in
  bank_code registry iban = Ok (Str.take (Z.to_nat b1) padded_bank, iban)
  /\ branch_code registry iban = Ok (Str.drop (Z.to_nat b1) padded_bank, iban)
  /\ account_code registry iban = Ok (padded_account, iban)
  /\ Str.take (Z.to_nat b1) padded_bank ++ Str.drop (Z.to_nat b1) padded_bank
     = padded_bank.
Proof.
  intros Hsp Hcc Hd Hbank Hbranch Hacc H12 H23 bb al Hbl Hal pb pa iban.
  assert (Hbb : bb = b2).
  { subst bb. unfold code_length. rewrite Hbank, Hbranch. lia. }
  assert (Hal' : al = b3 - b2).
  { subst al. unfold code_length. now rewrite Hacc. }
  assert (Hpb : Z.of_nat (String.length pb) = b2).
  { subst pb. rewrite length_rjust. lia. }
  assert (Hpa : Z.of_nat (String.length pa) = b3 - b2).
  { subst pa. rewrite length_rjust. lia. }
  assert (Htake : Str.take 2 (_code iban) = cc).
  { subst iban. cbn [_code]. rewrite <- Hcc. apply take_app_length. }
  assert (Hdrop : Str.drop 4 (_code iban) = pb ++ pa).
  { subst iban. cbn [_code]. rewrite <- app_assoc.
    replace 4%nat with (String.length (cc ++ digits))
      by (rewrite length_app; lia).
    apply drop_app_length. }
  unfold bank_code, branch_code, account_code. rewrite !_get_code_eq.
  unfold _get_iban_spec. rewrite Htake, Hsp, Hdrop. cbn [rbind].
  rewrite Hbank, Hbranch, Hacc. cbn [fst snd].
  rewrite !slice_int_nonneg by lia.
  change (Z.to_nat 0) with 0%nat. rewrite drop_0.
  assert (Hall : Str.take (Z.to_nat b3) (pb ++ pa) = pb ++ pa).
  { apply take_ge. rewrite length_app. lia. }
  assert (Hfirst : Str.take (Z.to_nat b2) (pb ++ pa) = pb).
  { replace (Z.to_nat b2) with (String.length pb) by lia. apply take_app_length. }
  rewrite Hall, Hfirst, take_app_le by lia.
  replace (Z.to_nat b2) with (String.length pb) by lia.
  rewrite drop_app_length. repeat split. apply take_drop.
Qed.

Lemma generated_components_witness :
  bank_code example_registry {| _code := "DE89370400440532013000" |}
  = Ok ("37040044", {| _code := "DE89370400440532013000" |})
  /\ branch_code example_registry {| _code := "DE89370400440532013000" |}
     = Ok ("", {| _code := "DE89370400440532013000" |})
  /\ account_code example_registry {| _code := "DE89370400440532013000" |}
     = Ok ("0532013000", {| _code := "DE89370400440532013000" |})
  /\ "37040044" ++ "" = "37040044".
Proof.
  refine (generated_components example_registry "DE" "89" "37040044" "532013000"
            DE_spec 8 8 18 _ _ _ _ _ _ _ _ _ _);
    try reflexivity; try lia; vm_compute; congruence.
Defined.

(** ** generate: what it raises first *)

(** [generate] looks the country up before anything else and raises
    [UnknownCountry] when it is missing; for a known country a bank code
    that is too long is reported before the account code is looked at, and
    no IBAN is constructed in either case. *)
Theorem generate_errors
  (registry : gmap string spec) (cc bank account : string) :
  (registry !! cc = None ->
   generate registry cc bank account = Err (UnknownCountry cc))
  /\ (forall sp,
        registry !! cc = Some sp ->
        let bb := code_length sp BankCode + code_length sp BranchCode in
        let al := code_length sp AccountCode in
        (bb < Z.of_nat (String.length bank) ->
         generate registry cc bank account = Err (CodeTooLong BankCode bb))
        /\ (Z.of_nat (String.length bank) <= bb ->
            al < Z.of_nat (String.length account) ->
            generate registry cc bank account = Err (CodeTooLong AccountCode al))).
Proof.
  unfold generate, generate_skeleton, _get_iban_spec. split.
  - now intros ->.
  - intros sp ->. cbv zeta. cbn [rbind].
    set (bb := code_length sp BankCode + code_length sp BranchCode).
    set (al := code_length sp AccountCode).
    split.
    + intros H. destruct (Z.gtb_spec (Z.of_nat (String.length bank)) bb); [reflexivity | lia].
    + intros Hb Ha.
      destruct (Z.gtb_spec (Z.of_nat (String.length bank)) bb); [lia|].
      destruct (Z.gtb_spec (Z.of_nat (String.length account)) al); [reflexivity | lia].
Qed.

Lemma generate_errors_witness :
  generate example_registry "FR" "30006" "1234567890189" = Err (UnknownCountry "FR")
  /\ generate example_registry "DE" "3704004400" "12345678901"
     = Err (CodeTooLong BankCode 8).
Proof.
  split.
  - apply (proj1 (generate_errors example_registry "FR" "30006" "1234567890189")).
    reflexivity.
  - refine (proj1 (proj2 (generate_errors example_registry "DE" "3704004400"
                            "12345678901") DE_spec _) _);
      [reflexivity | vm_compute; reflexivity].
Defined.

(** ** Patterns of several clauses *)

Lemma clause_text_app (c : clause) (rest : string) :
  clause_text c ++ rest
  = c_count c ++ bang_text (c_bang c) ++ String (c_type c) rest.
Proof. unfold clause_text. now rewrite !app_assoc. Qed.

Lemma clause_text_length (c : clause) (p : Re.piece) (rest : string) :
  clause_piece c p ->
  (1 + String.length rest <= String.length (clause_text c ++ rest))%nat.
Proof.
  intros (Hne & _). rewrite length_app. unfold clause_text.
  rewrite length_app. destruct (c_count c); [congruence|].
  cbn [String.length]. lia.
Qed.

Lemma clauses_text_length (cs : list clause) (ps : list Re.piece) :
  Forall2 clause_piece cs ps ->
  (List.length cs <= String.length (clauses_text cs))%nat.
Proof.
  induction 1 as [|c p cs ps Hc _ IH]; cbn [List.length clauses_text]; [lia|].
  pose proof (clause_text_length c p (clauses_text cs) Hc). lia.
Qed.

(** [re.sub] rewrites every clause of a well-formed pattern. *)
Lemma re_sub_clauses (cs : list clause) (ps : list Re.piece) :
  Forall2 clause_piece cs ps ->
  forall fuel, (List.length cs <= fuel)%nat ->
  re_sub_spec fuel (clauses_text cs) = clauses_regex_text cs.
Proof.
  induction 1 as [|c p cs ps Hc _ IH]; intros fuel Hfuel.
  - apply re_sub_spec_empty.
  - destruct fuel as [|fuel]; [cbn [List.length] in Hfuel; lia|].
    destruct Hc as (Hne & Hd & Ht & _).
    destruct (spec_text _ _ Ht) as (txt & Htxt & _ & _).
    destruct (spec_not_digit _ _ Ht) as [Hnd Hnb].
    cbn [clauses_text clauses_regex_text re_sub_spec].
    rewrite clause_text_app.
    rewrite (match_spec_re_clause _ _ _ txt _ Hne Hd Hnd Hnb Htxt).
    unfold clause_regex_text. rewrite Htxt.
    rewrite IH; [reflexivity|]. cbn [List.length] in Hfuel. lia.
Qed.

Lemma clause_regex_text_shape (c : clause) (p : Re.piece) (rest : string) :
  clause_piece c p ->
  exists txt,
    (forall r, Re.parse_atom (txt ++ r) = Some (Re.p_class p, r))
    /\ clause_regex_text c ++ rest
       = txt ++ String "{"
                  ((if c_bang c then "" else "1,")
                   ++ c_count c ++ String "}" rest).
Proof.
  intros (_ & _ & Ht & _).
  destruct (spec_text _ _ Ht) as (txt & Htxt & _ & Hatom).
  exists txt. split; [exact Hatom|].
  unfold clause_regex_text, convert. rewrite Htxt, app_assoc. f_equal.
  destruct (c_bang c); cbn [String.append]; now rewrite !app_assoc.
Qed.

(** [re.compile] reads the rewritten clauses back as their repetitions. *)
Lemma parse_clauses (cs : list clause) (ps : list Re.piece) :
  Forall2 clause_piece cs ps ->
  forall fuel, (List.length cs < fuel)%nat ->
  Re.parse_pieces fuel (clauses_regex_text cs ++ "$") = Ok (Re.Regex ps true).
Proof.
  induction 1 as [|c p cs ps Hc _ IH]; intros fuel Hfuel.
  - destruct fuel as [|fuel]; [lia | reflexivity].
  - destruct fuel as [|fuel]; [lia|].
    cbn [clauses_regex_text]. rewrite app_assoc.
    destruct (clause_regex_text_shape c p (clauses_regex_text cs ++ "$") Hc)
      as (txt & Hatom & ->).
    rewrite (parse_pieces_atom _ _ _ _ (Hatom _)), parse_quant_brace.
    destruct Hc as (Hne & Hd & _ & Hmin & Hmax & Hlt & Hge).
    destruct p as [k lo hi]. cbn [Re.p_class Re.p_min Re.p_max] in *.
    cbn [List.length] in Hfuel.
    destruct (c_bang c); cbn [String.append].
    + rewrite parse_bounds_exact by assumption. cbn [rbind].
      rewrite IH by lia. cbn [rbind Re.pieces Re.eol]. now subst.
    + rewrite parse_bounds_range
        by first [assumption | split; [now apply Hge | exact Hlt]].
      cbn [rbind]. rewrite IH by lia. cbn [rbind Re.pieces Re.eol]. now subst.
Qed.

(** [add_bban_regex] on a well-formed pattern: for a pattern made of
    clauses [<count>[!]<type>] with a type among [n], [a], [c], [e] and a
    count of at least 1 (any count with [!]), compilation succeeds, the
    regular expression has one repetition for each clause, in order, and
    ends with [$]; the other fields of the specification are kept. *)
Theorem add_bban_regex_clauses
  (cs : list clause) (ps : list Re.piece) (country : string) (sp : spec) :
  Forall2 clause_piece cs ps ->
  bban_spec sp = clauses_text cs ->
  compile_bban_spec (clauses_text cs) = Ok (Re.Regex ps true)
  /\ add_bban_regex country sp
     = Ok (Spec (iban_length sp) (bban_spec sp) (positions sp)
                (Some (Re.Regex ps true))).
Proof.
  intros Hcs Hsp.
  assert (H : compile_bban_spec (clauses_text cs) = Ok (Re.Regex ps true)).
  { unfold compile_bban_spec, bban_regex_source.
    rewrite (re_sub_clauses cs ps Hcs) by now apply (clauses_text_length cs ps).
    change ("^" ++ clauses_regex_text cs ++ "$")
      with (String "^" (clauses_regex_text cs ++ "$")).
    rewrite compile_anchored. apply (parse_clauses cs ps Hcs).
    assert (Hlen : (List.length cs <= String.length (clauses_regex_text cs))%nat).
    { clear Hsp. induction Hcs as [|c p cs ps Hc _ IH];
        cbn [List.length clauses_regex_text]; [lia|].
      destruct (clause_regex_text_shape c p (clauses_regex_text cs) Hc)
        as (txt & _ & ->).
      rewrite length_app. cbn [String.length]. rewrite !length_app.
      cbn [String.length]. lia. }
    rewrite length_app. lia. }
  split; [exact H|].
  unfold add_bban_regex. now rewrite Hsp, H.
Qed.

Lemma add_bban_regex_clauses_witness :
  compile_bban_spec (clauses_text [Clause "4" false "a"; Clause "6" true "n"])
  = Ok (Re.Regex [Re.Piece Re.Upper 1 (Some 4%N); Re.Piece Re.Digit 6 (Some 6%N)] true)
  /\ add_bban_regex "GB" (Spec 14 "4a6!n" DE_positions None)
     = Ok (Spec 14 "4a6!n" DE_positions
             (Some (Re.Regex [Re.Piece Re.Upper 1 (Some 4%N);
                              Re.Piece Re.Digit 6 (Some 6%N)] true))).
Proof.
  apply (add_bban_regex_clauses
           [Clause "4" false "a"; Clause "6" true "n"]
           [Re.Piece Re.Upper 1 (Some 4%N); Re.Piece Re.Digit 6 (Some 6%N)]
           "GB" (Spec 14 "4a6!n" DE_positions None)); [|reflexivity].
  repeat constructor; try reflexivity; try discriminate; cbn; lia.
Defined.

(** ** What the format check accepts *)

Lemma within_zero (hi : option N) : within 0 hi.
Proof. destruct hi; cbn [within]; [apply N.le_0_l | exact I]. Qed.

(** The matcher of a sequence of repetitions accepts the strings that
    split into one run for each repetition, followed by what the end of
    the expression accepts. *)
Lemma match_pieces_spec (ps : list Re.piece) (dollar : bool) (s : string) :
  Re.match_pieces ps dollar s = true
  <-> exists ws t,
        s = join ws ++ t /\ Forall2 run_of ps ws /\ Re.at_end dollar t = true.
Proof.
  revert s; induction ps as [|p ps IH]; intros s; cbn [Re.match_pieces].
  - split.
    + intros H. exists [], s. split; [reflexivity|]. split; [constructor | exact H].
    + intros (ws & t & -> & Hws & Ht). inversion Hws; subst. exact Ht.
  - rewrite match_rep_spec. split.
    + intros (w & t0 & -> & Hw & Hlo & Hhi & Hrest).
      apply IH in Hrest. destruct Hrest as (ws & t & -> & Hws & Ht).
      exists (w :: ws), t. cbn [join]. rewrite app_assoc.
      split; [reflexivity|]. split; [|exact Ht].
      constructor; [|exact Hws]. rewrite N.add_0_l in *.
      split; [exact Hw|]. split; [exact Hlo|].
      destruct Hhi as [-> | Hhi]; [apply within_zero | exact Hhi].
    + intros (ws & t & -> & Hws & Ht).
      inversion Hws as [|p' w ps' ws' (Hw & Hlo & Hhi) Hws']; subst.
      exists w, (join ws' ++ t). cbn [join]. rewrite app_assoc, N.add_0_l.
      repeat split; try assumption; [now right|].
      apply IH. exists ws', t. auto.
Qed.

(** [validate_format], for a country whose regular expression is a sequence
    of repetitions ended by [$]: the BBAN passes exactly when it splits into
    one run for each repetition, of the class and of a length in the range
    of the repetition, optionally followed by one final newline; otherwise
    [InvalidBBANStructure] carries the BBAN and the pattern. *)
Theorem validate_format_runs
  (registry : gmap string spec) (self : IBAN) (sp : spec) (ps : list Re.piece) :
  registry !! Str.take 2 (_code self) = Some sp ->
  regex sp = Some (Re.Regex ps true) ->
  let b := Str.drop 4 (_code self) in
  (validate_format registry self = Ok (tt, self)
   <-> exists ws, Forall2 run_of ps ws
                  /\ (b = join ws \/ b = join ws ++ String newline ""))
  /\ (validate_format registry self = Ok (tt, self)
      \/ validate_format registry self
         = Err (InvalidBBANStructure b (bban_spec sp))).
Proof.
  intros Hreg Hre b. rewrite validate_format_eq. unfold _get_iban_spec.
  rewrite Hreg. cbn [rbind]. rewrite Hre. fold b.
  unfold Re.matches. cbn [Re.pieces Re.eol].
  split; [|destruct (Re.match_pieces ps true b); auto].
  destruct (Re.match_pieces ps true b) eqn:Hm.
  - apply match_pieces_spec in Hm. destruct Hm as (ws & t & Hb & Hws & Ht).
    apply at_end_dollar in Ht. split; [|reflexivity].
    intros _. exists ws. split; [exact Hws|].
    destruct Ht as [-> | ->]; [left; now rewrite app_nil_r in Hb | now right].
  - split; [discriminate|]. intros (ws & Hws & Hb). exfalso.
    assert (Hm' : Re.match_pieces ps true b = true); [|congruence].
    apply match_pieces_spec.
    destruct Hb as [Hb | Hb].
    + exists ws, "". rewrite app_nil_r. auto.
    + exists ws, (String newline ""). auto.
Qed.

Lemma validate_format_runs_witness :
  validate_format example_registry {| _code := "DE89370400440532013000" |}
  = Ok (tt, {| _code := "DE89370400440532013000" |}).
Proof.
  apply (proj1 (validate_format_runs example_registry
                  {| _code := "DE89370400440532013000" |} DE_spec
                  [Re.Piece Re.Digit 8 (Some 8%N); Re.Piece Re.Digit 10 (Some 10%N)]
                  eq_refl eq_refl)).
  exists ["37040044"; "0532013000"]. split; [|left; reflexivity].
  apply List.Forall2_cons; [|apply List.Forall2_cons; [|apply List.Forall2_nil]];
    (split; [reflexivity|]; split; vm_compute; discriminate).
Defined.

(** ** Checksum digits against the checksum check *)

(** The digits that [_parse] writes into a skeleton satisfy the checksum
    check when the value computed is 10 or more; below 10 the space that
    ['{:2d}'] writes makes [numerify], and with it the checksum check,
    raise. *)
Theorem skeleton_checksum (iban : string) (a b : ascii) (r : string) (n : Z) :
  numerify (r ++ String a (String b "")) = Ok n ->
  let v := 98 - (n * 100) mod 97 in
  let self := {| _code := String a (String b (String "?" (String "?" r))) |} in
  let self' := {| _code := String a (String b (format_2d v ++ r)) |} in
  _parse iban self = Ok (tt, self')
  /\ (10 <= v -> validate_checksum self' = Ok (tt, self'))
  /\ (v < 10 -> validate_checksum self' = Err SubstringNotFound).
Proof.
  intros Hn v self self'.
  assert (Hv : 2 <= v <= 98).
  { subst v. pose proof (Z.mod_pos_bound (n * 100) 97). lia. }
  split; [|split].
  - rewrite _parse_eq. subst self. cbn [_code].
    change (Str.take 2 (Str.drop 2 (String a (String b (String "?" (String "?" r))))))
      with "??".
    change (String.eqb "??" "??") with true. cbv iota.
    change (Str.drop 4 (String a (String b (String "?" (String "?" r))))) with r.
    change (Str.take 2 (String a (String b (String "?" (String "?" r)))))
      with (String a (String b "")).
    rewrite Hn. reflexivity.
  - intros Hge.
    destruct (format_2d_two_digits v) as (c1 & c2 & Hfmt & H1 & H2 & Hval); [lia|].
    rewrite validate_checksum_eq. subst self'. rewrite Hfmt.
    cbn [_code String.append].
    change (Str.drop 4 (String a (String b (String c1 (String c2 r))))) with r.
    change (Str.take 4 (String a (String b (String c1 (String c2 r)))))
      with (String a (String b "") ++ String c1 (String c2 "")).
    rewrite <- app_assoc, (numerify_two_more _ c1 c2 n Hn H1 H2). cbn [rbind].
    rewrite Hval. subst v. now rewrite checksum_closes.
  - intros Hlt.
    destruct (format_2d_one_digit v) as (c2 & Hfmt & _); [lia|].
    rewrite validate_checksum_eq. subst self'. rewrite Hfmt.
    cbn [_code String.append].
    change (Str.drop 4 (String a (String b (String " " (String c2 r))))) with r.
    change (Str.take 4 (String a (String b (String " " (String c2 r)))))
      with (String a (String b (String " " (String c2 "")))).
    unfold numerify. rewrite numerify_digits_error; [reflexivity|].
    rewrite all_app. cbn [Str.all].
    change (is_upper_alnum " ") with false.
    now rewrite !andb_false_r.
Qed.

Lemma skeleton_checksum_witness :
  _parse "" {| _code := "DE??370400440532013000" |}
  = Ok (tt, {| _code := "DE89370400440532013000" |})
  /\ (10 <= 89 ->
      validate_checksum {| _code := "DE89370400440532013000" |}
      = Ok (tt, {| _code := "DE89370400440532013000" |}))
  /\ (89 < 10 ->
      validate_checksum {| _code := "DE89370400440532013000" |}
      = Err SubstringNotFound).
Proof.
  apply (skeleton_checksum "" "D" "E" "370400440532013000" 3704004405320130001314).
  reflexivity.
Defined.

(** The checksum check reads the check digits modulo 97: two pairs of
    digits whose values differ by 97 (00 and 97, 01 and 98, 02 and 99) are
    accepted or refused together. *)
Theorem checksum_digits_modulo
  (a b d1 d2 e1 e2 : ascii) (r : string) (n : Z) :
  numerify (r ++ String a (String b "")) = Ok n ->
  is_digit d1 = true -> is_digit d2 = true ->
  is_digit e1 = true -> is_digit e2 = true ->
  (10 * digit_value d1 + digit_value d2)
  = (10 * digit_value e1 + digit_value e2) + 97 ->
  let with_d := {| _code := String a (String b (String d1 (String d2 r))) |} in
  let with_e := {| _code := String a (String b (String e1 (String e2 r))) |} in
  validate_checksum with_d = Ok (tt, with_d)
  <-> validate_checksum with_e = Ok (tt, with_e).
Proof.
  intros Hn Hd1 Hd2 He1 He2 Hdiff with_d with_e.
  rewrite !validate_checksum_eq. subst with_d with_e. cbn [_code].
  change (Str.drop 4 (String a (String b (String d1 (String d2 r))))) with r.
  change (Str.drop 4 (String a (String b (String e1 (String e2 r))))) with r.
  change (Str.take 4 (String a (String b (String d1 (String d2 r)))))
    with (String a (String b "") ++ String d1 (String d2 "")).
  change (Str.take 4 (String a (String b (String e1 (String e2 r)))))
    with (String a (String b "") ++ String e1 (String e2 "")).
  rewrite <- !app_assoc.
  rewrite (numerify_two_more _ d1 d2 n Hn Hd1 Hd2).
  rewrite (numerify_two_more _ e1 e2 n Hn He1 He2). cbn [rbind].
  rewrite Hdiff.
  replace (n * 100 + (10 * digit_value e1 + digit_value e2 + 97))
    with (n * 100 + (10 * digit_value e1 + digit_value e2) + 1 * 97) by ring.
  rewrite Z.mod_add by lia.
  destruct (Z.eqb_spec ((n * 100 + (10 * digit_value e1 + digit_value e2)) mod 97) 1);
    split; intros H; try reflexivity; discriminate H.
Qed.

Lemma checksum_digits_modulo_witness :
  validate_checksum {| _code := "DE01370400440532013032" |}
  = Ok (tt, {| _code := "DE01370400440532013032" |}).
Proof.
  apply (checksum_digits_modulo "D" "E" "9" "8" "0" "1" "370400440532013032"
           3704004405320130321314); reflexivity.
Defined.

(** ** The pattern compiler on any sequence of clauses *)

Lemma spec_class_none (t : ascii) :
  spec_class t = None -> _spec_to_re t = None.
Proof.
  destruct t as [b0 b1 b2 b3 b4 b5 b6 b7].
  destruct b0, b1, b2, b3, b4, b5, b6, b7; intros H;
    try discriminate H; reflexivity.
Qed.

Lemma match_spec_re_none (ds : string) (bang : bool) (t : ascii) (rest : string) :
  Str.all is_digit ds = true ->
  is_digit t = false -> Ascii.eqb t "!" = false -> _spec_to_re t = None ->
  match_spec_re (ds ++ bang_text bang ++ String t rest) = None.
Proof.
  intros Hd Ht Hbang Htxt. unfold match_spec_re.
  rewrite span_app_stop; [|exact Hd|].
  2:{ destruct bang; cbn [bang_text String.append stops]; [reflexivity | exact Ht]. }
  destruct (String.eqb ds ""); [reflexivity|].
  destruct bang; cbn [bang_text String.append].
  - change (Ascii.eqb "!" "!") with true. cbv iota beta. now rewrite Htxt.
  - rewrite Hbang. cbv iota beta. now rewrite Htxt.
Qed.

(** [re.sub] keeps a clause of unrecognised type and goes on after it. *)
Lemma re_sub_spec_keep (ds : string) (bang : bool) (t : ascii) (rest out : string) :
  Str.all is_digit ds = true ->
  is_digit t = false -> Ascii.eqb t "!" = false -> _spec_to_re t = None ->
  (forall fuel, (String.length rest <= fuel)%nat -> re_sub_spec fuel rest = out) ->
  forall fuel,
    (String.length (ds ++ bang_text bang ++ String t rest) <= fuel)%nat ->
    re_sub_spec fuel (ds ++ bang_text bang ++ String t rest)
    = ds ++ bang_text bang ++ String t out.
Proof.
  intros Hd Ht Hbang Htxt Hrest.
  assert (Hlast : forall f, (String.length (String t rest) <= f)%nat ->
                            re_sub_spec f (String t rest) = String t out).
  { intros [|f] Hf; cbn [String.length] in Hf; [lia|]. cbn [re_sub_spec].
    pose proof (match_spec_re_none "" false t rest eq_refl Ht Hbang Htxt) as E.
    cbn [bang_text String.append] in E. rewrite E.
    rewrite Hrest by lia. reflexivity. }
  assert (Htail : forall f,
             (String.length (bang_text bang ++ String t rest) <= f)%nat ->
             re_sub_spec f (bang_text bang ++ String t rest)
             = bang_text bang ++ String t out).
  { destruct bang; cbn [bang_text String.append]; [|exact Hlast].
    intros [|f] Hf; cbn [String.length] in Hf; [lia|]. cbn [re_sub_spec].
    pose proof (match_spec_re_none "" true t rest eq_refl Ht Hbang Htxt) as E.
    cbn [bang_text String.append] in E. rewrite E.
    rewrite Hlast by (cbn [String.length]; lia). reflexivity. }
  induction ds as [|d ds IH]; [exact Htail|].
  intros [|fuel] Hf; cbn [String.append String.length] in Hf; [lia|].
  cbn [re_sub_spec].
  pose proof (match_spec_re_none (String d ds) bang t rest Hd Ht Hbang Htxt) as E.
  cbn [String.append] in *. rewrite E.
  cbn [Str.all] in Hd. apply andb_true_iff in Hd as [_ Hd].
  rewrite (IH Hd) by lia. reflexivity.
Qed.

(** [re.sub] on a sequence of clauses: each clause of a recognised type is
    rewritten, each other clause is kept. *)
Lemma re_sub_spec_clauses (cs : list clause) :
  Forall clause_syntax cs ->
  forall fuel, (String.length (clauses_text cs) <= fuel)%nat ->
  re_sub_spec fuel (clauses_text cs) = clauses_rewritten cs.
Proof.
  induction 1 as [|c cs (Hne & Hd & Hl) _ IH]; intros fuel Hfuel.
  - apply re_sub_spec_empty.
  - cbn [clauses_text clauses_rewritten] in *. rewrite clause_text_app in *.
    destruct (letter_not_digit _ Hl) as (Hnd & Hnb & _).
    unfold clause_rewritten.
    destruct (spec_class (c_type c)) as [k|] eqn:Hk.
    + destruct (spec_text _ _ Hk) as (txt & Htxt & _ & _). rewrite Htxt.
      destruct fuel as [|fuel].
      { rewrite length_app in Hfuel. destruct (c_count c); [congruence|].
        cbn [String.length] in Hfuel. lia. }
      cbn [re_sub_spec].
      rewrite (match_spec_re_clause _ _ _ txt _ Hne Hd Hnd Hnb Htxt).
      rewrite IH; [reflexivity|].
      rewrite !length_app in Hfuel. cbn [String.length] in Hfuel.
      destruct (c_count c); [congruence|]. cbn [String.length] in Hfuel. lia.
    + rewrite (spec_class_none _ Hk), clause_text_app.
      apply re_sub_spec_keep; try assumption.
      now apply spec_class_none.
Qed.

Lemma parse_bounds_exact_any (count rest : string) :
  count <> "" -> Str.all is_digit count = true ->
  Re.parse_bounds (count ++ String "}" rest)
  = if (Re.MAXREPEAT <=? Re.N_of_digits count)%N then Err ReError
    else Ok (Re.N_of_digits count, Some (Re.N_of_digits count), rest).
Proof.
  intros Hne Hd. unfold Re.parse_bounds.
  rewrite span_app_stop; [|exact Hd|reflexivity].
  rewrite (eqb_nonempty count Hne).
  change (Ascii.eqb "}" "}") with true. reflexivity.
Qed.

Lemma parse_bounds_range_any (count rest : string) :
  count <> "" -> Str.all is_digit count = true ->
  Re.parse_bounds (String "1" (String "," (count ++ String "}" rest)))
  = if (Re.MAXREPEAT <=? Re.N_of_digits count)%N then Err ReError
    else if (Re.N_of_digits count <? 1)%N then Err ReError
    else Ok (1%N, Some (Re.N_of_digits count), rest).
Proof.
  intros Hne Hd. unfold Re.parse_bounds.
  change (Str.span is_digit (String "1" (String "," (count ++ String "}" rest))))
    with ("1", String "," (count ++ String "}" rest)).
  cbv iota beta.
  change (String.eqb "1" "") with false.
  change (Ascii.eqb "," "}") with false.
  change (Ascii.eqb "," ",") with true. cbv iota beta.
  rewrite span_app_stop; [|exact Hd|reflexivity].
  rewrite (eqb_nonempty count Hne).
  change (Ascii.eqb "}" "}") with true.
  change (Re.N_of_digits "1") with 1%N. cbv iota beta.
  change ((Re.MAXREPEAT <=? 1)%N) with false. cbn [orb]. reflexivity.
Qed.

(** The text [re.sub] returns for a sequence of clauses starts with no
    repetition sign. *)
Lemma parse_quant_rewritten (cs : list clause) :
  Forall clause_syntax cs ->
  Re.parse_quant (clauses_rewritten cs ++ "$")
  = Ok (1%N, Some 1%N, clauses_rewritten cs ++ "$").
Proof.
  intros [|c cs' (Hne & Hd & Hl) _]; [reflexivity|].
  cbn [clauses_rewritten]. unfold clause_rewritten.
  destruct (spec_class (c_type c)) as [k|] eqn:Hk.
  - destruct (spec_cases _ _ Hk) as [[-> _]|[[-> _]|[[-> _]|[-> _]]]]; reflexivity.
  - rewrite (spec_class_none _ Hk). unfold clause_text.
    destruct (c_count c) as [|d ds]; [congruence|].
    cbn [String.append]. apply parse_quant_plain. left. apply digit_plain.
    cbn [Str.all] in Hd. now apply andb_true_iff in Hd as [Hd _].
Qed.

(** Ordinary text is read as its characters, once each, before what
    follows. *)
Lemma parse_pieces_literal_then (lit rest : string) (fuel : nat) :
  Str.all is_plain lit = true ->
  Re.parse_quant rest = Ok (1%N, Some 1%N, rest) ->
  Re.parse_pieces (String.length lit + fuel) (lit ++ rest)
  = rbind (Re.parse_pieces fuel rest) (fun re =>
    Ok (Re.Regex (literal_pieces lit ++ Re.pieces re) (Re.eol re))).
Proof.
  intros Hp Hq. induction lit as [|c lit IH].
  - cbn [String.length String.append literal_pieces Nat.add app].
    destruct (Re.parse_pieces fuel rest) as [[ps e]|]; reflexivity.
  - cbn [Str.all] in Hp. apply andb_true_iff in Hp as [Hc Ht].
    cbn [String.append String.length Nat.add literal_pieces].
    rewrite (parse_pieces_atom _ _ (Re.Lit c) (lit ++ rest) (parse_atom_plain c _ Hc)).
    assert (Hq' : Re.parse_quant (lit ++ rest) = Ok (1%N, Some 1%N, lit ++ rest)).
    { destruct lit as [|d lit]; [exact Hq|].
      cbn [String.append]. apply parse_quant_plain. left.
      cbn [Str.all] in Ht. now apply andb_true_iff in Ht as [Hd _]. }
    rewrite Hq'. cbn [rbind]. rewrite (IH Ht).
    destruct (Re.parse_pieces fuel rest) as [[ps e]|]; reflexivity.
Qed.

Lemma compiled_clauses_cons (c : clause) (cs : list clause) :
  compiled_clauses (c :: cs)
  = if clause_compiles c
    then rbind (compiled_clauses cs) (fun re =>
         Ok (Re.Regex (clause_pieces c ++ Re.pieces re) (Re.eol re)))
    else Err ReError.
Proof.
  unfold compiled_clauses. cbn [forallb flat_map].
  destruct (clause_compiles c), (forallb clause_compiles cs); reflexivity.
Qed.

Lemma clause_text_plain (c : clause) :
  clause_syntax c -> Str.all is_plain (clause_text c) = true.
Proof.
  intros (_ & Hd & Hl). destruct (letter_not_digit _ Hl) as (_ & _ & Hpl).
  unfold clause_text. rewrite !all_app.
  rewrite (all_impl is_digit is_plain _ digit_plain Hd).
  destruct (c_bang c); cbn [bang_text Str.all andb]; rewrite Hpl; reflexivity.
Qed.

(** [re.compile] on the text [re.sub] returns for a sequence of clauses. *)
Lemma parse_pieces_clauses (cs : list clause) :
  Forall clause_syntax cs ->
  forall fuel, (String.length (clauses_rewritten cs) < fuel)%nat ->
  Re.parse_pieces fuel (clauses_rewritten cs ++ "$") = compiled_clauses cs.
Proof.
  induction 1 as [|c cs Hc Hcs IH]; intros fuel Hfuel.
  - destruct fuel as [|fuel]; [lia | reflexivity].
  - pose proof Hc as (Hne & Hd & Hl).
    rewrite compiled_clauses_cons.
    cbn [clauses_rewritten] in *. rewrite app_assoc.
    unfold clause_compiles, clause_pieces, clause_rewritten in *.
    destruct (spec_class (c_type c)) as [k|] eqn:Hk.
    + destruct (spec_text _ _ Hk) as (txt & Htxt & Htne & Hatom).
      rewrite Htxt in *. unfold convert in *.
      assert (Hshape : (txt ++ (if c_bang c then "{" ++ c_count c ++ "}"
                                else "{1," ++ c_count c ++ "}"))
                       ++ clauses_rewritten cs ++ "$"
                       = txt ++ String "{"
                           ((if c_bang c then "" else "1,")
                            ++ c_count c ++ String "}" (clauses_rewritten cs ++ "$"))).
      { rewrite app_assoc. f_equal.
        destruct (c_bang c); cbn [String.append]; now rewrite !app_assoc. }
      rewrite Hshape.
      assert (Hlen : (String.length (clauses_rewritten cs) + 2 < fuel)%nat).
      { rewrite !length_app in Hfuel.
        destruct (c_bang c); cbn [String.append String.length] in Hfuel;
          rewrite ?length_app in Hfuel; cbn [String.length] in Hfuel; lia. }
      destruct fuel as [|fuel]; [lia|].
      rewrite (parse_pieces_atom _ _ _ _ (Hatom _)), parse_quant_brace.
      unfold repetition_ok.
      destruct (c_bang c); cbn [String.append orb].
      * rewrite parse_bounds_exact_any by assumption.
        rewrite andb_true_r.
        destruct (N.leb_spec Re.MAXREPEAT (Re.N_of_digits (c_count c))),
                 (N.ltb_spec (Re.N_of_digits (c_count c)) Re.MAXREPEAT);
          try lia; cbn [rbind]; [reflexivity|].
        rewrite IH by lia.
        destruct (compiled_clauses cs) as [[ps e]|]; reflexivity.
      * rewrite parse_bounds_range_any by assumption.
        destruct (N.leb_spec Re.MAXREPEAT (Re.N_of_digits (c_count c))),
                 (N.ltb_spec (Re.N_of_digits (c_count c)) Re.MAXREPEAT);
          try lia; cbn [rbind andb]; [reflexivity|].
        destruct (N.ltb_spec (Re.N_of_digits (c_count c)) 1),
                 (N.leb_spec 1 (Re.N_of_digits (c_count c)));
          try lia; cbn [rbind]; [reflexivity|].
        rewrite IH by lia.
        destruct (compiled_clauses cs) as [[ps e]|]; reflexivity.
    + rewrite (spec_class_none _ Hk) in *.
      rewrite length_app in Hfuel.
      replace fuel
        with (String.length (clause_text c) + (fuel - String.length (clause_text c)))%nat
        by lia.
      rewrite parse_pieces_literal_then;
        [|now apply clause_text_plain | now apply parse_quant_rewritten].
      rewrite IH by lia. reflexivity.
Qed.

Lemma compile_bban_spec_clauses (cs : list clause) :
  Forall clause_syntax cs ->
  compile_bban_spec (clauses_text cs) = compiled_clauses cs.
Proof.
  intros Hcs. unfold compile_bban_spec, bban_regex_source.
  rewrite (re_sub_spec_clauses cs Hcs) by lia.
  change ("^" ++ clauses_rewritten cs ++ "$")
    with (String "^" (clauses_rewritten cs ++ "$")).
  rewrite compile_anchored. apply (parse_pieces_clauses cs Hcs).
  rewrite length_app. cbn [String.length]. lia.
Qed.

Lemma spec_to_re_none (t : ascii) :
  _spec_to_re t = None -> spec_class t = None.
Proof.
  destruct t as [b0 b1 b2 b3 b4 b5 b6 b7].
  destruct b0, b1, b2, b3, b4, b5, b6, b7; intros H;
    try discriminate H; reflexivity.
Qed.

(** The clauses that make [re.compile] fail. *)
Lemma clause_compiles_false (c : clause) :
  clause_compiles c = false
  <-> _spec_to_re (c_type c) <> None
      /\ ((Re.MAXREPEAT <= Re.N_of_digits (c_count c))%N
          \/ (c_bang c = false /\ Re.N_of_digits (c_count c) = 0%N)).
Proof.
  unfold clause_compiles, repetition_ok.
  destruct (spec_class (c_type c)) as [k|] eqn:Hk.
  - destruct (spec_text _ _ Hk) as (txt & Htxt & _).
    destruct (N.ltb_spec (Re.N_of_digits (c_count c)) Re.MAXREPEAT),
             (N.leb_spec 1 (Re.N_of_digits (c_count c))), (c_bang c);
      cbn [andb orb]; split; try discriminate; try reflexivity;
      try (intros _; split; [congruence | lia]);
      intros (_ & [Hbig | [Hb Hz]]); try discriminate Hb; lia.
  - split; [discriminate|]. intros (Hsome & _).
    now rewrite (spec_class_none _ Hk) in Hsome.
Qed.

Lemma forallb_false_Exists {A} (f : A -> bool) (P : A -> Prop) (l : list A) :
  (forall a, f a = false <-> P a) ->
  forallb f l = false <-> Exists P l.
Proof.
  intros Hf. induction l as [|a l IH]; cbn [forallb].
  - split; [discriminate | intros H; inversion H].
  - rewrite andb_false_iff, Hf, IH. split.
    + intros [H | H]; [now apply List.Exists_cons_hd | now apply List.Exists_cons_tl].
    + intros H. inversion H; subst; auto.
Qed.

(** C4, amended. Pattern compilation validates nothing and has no
    [InvalidSpecification].  On a pattern made of clauses
    [<count>[!]<type>], with a count of one or more digits and any letter
    as type: [re.sub] rewrites the clauses whose type is one of [n], [a],
    [c], [e] and keeps the others as they are, and [re.compile] reads
    what was kept as ordinary text.  Compilation fails, with the
    exception of [re.compile], exactly when a clause of one of the four
    types has a count of [MAXREPEAT] or more, or the count 0 without [!]
    (the repetition [{1,0}]); otherwise a matcher is produced and attached
    to the specification, in which a clause of one of the four types is
    its repetition (a repetition of 0 for the count 0 with [!]) and a
    clause of any other type is the matcher of its own text. *)
Theorem pattern_compiler_validates_nothing :
  (forall cs : list clause,
      Forall clause_syntax cs ->
      bban_regex_source (clauses_text cs) = "^" ++ clauses_rewritten cs ++ "$"
      /\ compile_bban_spec (clauses_text cs)
         = (if forallb clause_compiles cs
            then Ok (Re.Regex (flat_map clause_pieces cs) true)
            else Err ReError)
      /\ (forall (country : string) (sp : spec),
             bban_spec sp = clauses_text cs ->
             add_bban_regex country sp
             = if forallb clause_compiles cs
               then Ok (Spec (iban_length sp) (bban_spec sp) (positions sp)
                             (Some (Re.Regex (flat_map clause_pieces cs) true)))
               else Err ReError)
      /\ (compile_bban_spec (clauses_text cs) = Err ReError
          <-> Exists (fun c =>
                        _spec_to_re (c_type c) <> None
                        /\ ((Re.MAXREPEAT <= Re.N_of_digits (c_count c))%N
                            \/ (c_bang c = false
                                /\ Re.N_of_digits (c_count c) = 0%N))) cs))
  /\ (forall c : clause,
        _spec_to_re (c_type c) = None ->
        clause_rewritten c = clause_text c
        /\ clause_compiles c = true
        /\ clause_pieces c = literal_pieces (clause_text c))
  /\ (forall (c : clause) (k : Re.char_class),
        spec_class (c_type c) = Some k ->
        _spec_to_re (c_type c) <> None
        /\ clause_pieces c
           = [Re.Piece k (if c_bang c then Re.N_of_digits (c_count c) else 1%N)
                         (Some (Re.N_of_digits (c_count c)))])
  /\ (forall (count : string) (bang : bool) (t : ascii),
        count <> "" -> Str.all is_digit count = true ->
        is_letter t = true -> _spec_to_re t = None ->
        compile_bban_spec (count ++ bang_text bang ++ String t "")
        = Ok (Re.Regex (literal_pieces (count ++ bang_text bang ++ String t "")) true))
  /\ (forall (count : string) (t : ascii) (k : Re.char_class),
        count <> "" -> Str.all is_digit count = true ->
        spec_class t = Some k -> Re.N_of_digits count = 0%N ->
        compile_bban_spec (count ++ "!" ++ String t "")
        = Ok (Re.Regex [Re.Piece k 0 (Some 0%N)] true)
        /\ compile_bban_spec (count ++ String t "") = Err ReError).
Proof.
  split; [|split; [|split; [|split]]].
  - intros cs Hcs.
    pose proof (compile_bban_spec_clauses cs Hcs) as H.
    unfold compiled_clauses in H.
    split; [|split; [exact H|split]].
    + unfold bban_regex_source.
      now rewrite (re_sub_spec_clauses cs Hcs) by lia.
    + intros country sp Hsp. unfold add_bban_regex. rewrite Hsp, H.
      now destruct (forallb clause_compiles cs).
    + rewrite H, <- (forallb_false_Exists clause_compiles _ cs clause_compiles_false).
      destruct (forallb clause_compiles cs); split; intros E;
        try reflexivity; discriminate E.
  - intros c Hnone. unfold clause_rewritten. rewrite Hnone.
    apply spec_to_re_none in Hnone.
    unfold clause_compiles, clause_pieces. now rewrite Hnone.
  - intros c k Hk. unfold clause_pieces. rewrite Hk.
    destruct (spec_text _ _ Hk) as (txt & Htxt & _). split; [congruence | reflexivity].
  - intros count bang t Hne Hd Hl Htxt.
    destruct (letter_not_digit t Hl) as (Hnd & Hnb & Hpl).
    unfold compile_bban_spec, bban_regex_source.
    rewrite (re_sub_spec_unrecognised count bang t _ Hd Hnd Hnb Htxt).
    change ("^" ++ ?x) with (String "^" x).
    rewrite compile_anchored.
    apply parse_pieces_literal; [|rewrite (length_app _ "$"); lia].
    rewrite !all_app. rewrite (all_impl is_digit is_plain count digit_plain Hd).
    destruct bang; cbn [bang_text Str.all andb]; rewrite Hpl; reflexivity.
  - intros count t k Hne Hd Ht Hzero. split.
    + pose proof (compile_clause count true t k Hne Hd Ht) as H.
      rewrite Hzero in H. apply H; [reflexivity | discriminate].
    + now apply (compile_clause_zero count t k).
Qed.

Lemma pattern_compiler_validates_nothing_witness :
  compile_bban_spec
    (clauses_text [Clause "8" true "x"; Clause "4" false "n"; Clause "0" true "a"])
  = Ok (Re.Regex [Re.Piece (Re.Lit "8") 1 (Some 1%N);
                  Re.Piece (Re.Lit "!") 1 (Some 1%N);
                  Re.Piece (Re.Lit "x") 1 (Some 1%N);
                  Re.Piece Re.Digit 1 (Some 4%N);
                  Re.Piece Re.Upper 0 (Some 0%N)] true)
  /\ compile_bban_spec (clauses_text [Clause "8" true "n"; Clause "0" false "a"])
     = Err ReError
  /\ compile_bban_spec ("8" ++ bang_text true ++ String "x" "")
     = Ok (Re.Regex (literal_pieces ("8" ++ bang_text true ++ String "x" "")) true)
  /\ compile_bban_spec ("0" ++ String "n" "") = Err ReError.
Proof.
  split; [|split; [|split]].
  - refine (proj1 (proj2 (proj1 pattern_compiler_validates_nothing
                     [Clause "8" true "x"; Clause "4" false "n"; Clause "0" true "a"]
                     _))).
    repeat constructor; discriminate.
  - refine (proj1 (proj2 (proj1 pattern_compiler_validates_nothing
                     [Clause "8" true "n"; Clause "0" false "a"] _))).
    repeat constructor; discriminate.
  - apply (proj1 (proj2 (proj2 (proj2 pattern_compiler_validates_nothing)))
             "8" true "x"%char);
      [discriminate | reflexivity | reflexivity | reflexivity].
  - apply (proj2 (proj2 (proj2 (proj2 pattern_compiler_validates_nothing)))
             "0" "n"%char Re.Digit);
      [discriminate | reflexivity | reflexivity | reflexivity].
Defined.
